(** * simple-dns-proxy: the resolver of [main.go], embedded and verified

    The development follows [src/main.go]: the configuration loader
    ([loadConfig]), the reload loop ([watchConfig]), the request handler
    ([handleDNSRequest]) and the listener start-up of [main].

    Go strings are byte sequences, so they are [string] (a list of 8-bit
    [ascii]).  [map[string]string] is a [gmap string string]; a nil map and
    an empty map answer lookups alike.  [int] and [uint16] fields are [Z]:
    the program never does arithmetic on them, it only compares them. *)

From Stdlib Require Import ZArith Ascii String List Bool Lia.
From Stdlib Require Import Numbers.DecimalString.
From stdpp Require Import base gmap strings.

Local Open Scope Z_scope.

(** ** Errors *)

(** A Go [error] is kept as its message. *)
Definition error := string.

Inductive Result (A : Type) : Type :=
| Ok (a : A)
| Err (e : error).
Arguments Ok {A} a.
Arguments Err {A} e.

Definition isOk {A} (r : Result A) : bool :=
  match r with Ok _ => true | Err _ => false end.

(** ** The [strings] functions the handler calls *)

Module GoStrings.

(** [strings.HasSuffix]:
    [len(s) >= len(suffix) && s[len(s)-len(suffix):] == suffix]. *)
Definition HasSuffix (s suffix : string) : bool :=
  (String.length suffix <=? String.length s)%nat
  && String.eqb
       (String.substring (String.length s - String.length suffix)
                         (String.length suffix) s)
       suffix.

(** [strings.TrimSuffix]: [s[:len(s)-len(suffix)]] when [s] has the suffix,
    [s] otherwise.  At most one copy of the suffix is removed. *)
Definition TrimSuffix (s suffix : string) : string :=
  if HasSuffix s suffix
  then String.substring 0 (String.length s - String.length suffix) s
  else s.

(** ['A' <= c && c <= 'Z'] *)
Definition isUpperByte (c : ascii) : bool :=
  (65 <=? nat_of_ascii c)%nat && (nat_of_ascii c <=? 90)%nat.

(** [c += 'a' - 'A'] for an upper-case byte. *)
Definition lowerByte (c : ascii) : ascii :=
  if isUpperByte c then ascii_of_nat (nat_of_ascii c + 32) else c.

(** [c >= utf8.RuneSelf] fails for every byte. *)
Fixpoint isASCII (s : string) : bool :=
  match s with
  | EmptyString => true
  | String c s' => (nat_of_ascii c <? 128)%nat && isASCII s'
  end.

Fixpoint hasUpper (s : string) : bool :=
  match s with
  | EmptyString => false
  | String c s' => isUpperByte c || hasUpper s'
  end.

Fixpoint mapBytes (f : ascii -> ascii) (s : string) : string :=
  match s with
  | EmptyString => EmptyString
  | String c s' => String (f c) (mapBytes f s')
  end.

(** Membership of a byte in a string. *)
Fixpoint InStr (c : ascii) (s : string) : Prop :=
  match s with
  | EmptyString => False
  | String d s' => d = c \/ InStr c s'
  end.

Section ToLower.
(** [strings.Map(unicode.ToLower, s)], the path [strings.ToLower] takes
    for a string with a byte outside ASCII.  The Unicode case tables are
    the Go library's, so the function is a parameter. *)
Variable MapUnicodeToLower : string -> string.

(** [strings.ToLower]: an ASCII-only string is returned as it is when it
    has no upper-case byte and has its upper-case bytes shifted
    otherwise; any other string goes through the Unicode mapping. *)
Definition ToLower (s : string) : string :=
  if isASCII s then
    if hasUpper s then mapBytes lowerByte s else s
  else MapUnicodeToLower s.
End ToLower.

End GoStrings.
Import GoStrings.

(** ** Configuration (lines 16-29) *)

Record ServerConfig : Type := mkServerConfig {
  Enabled : bool;      (* yaml:"enabled" *)
  Port : Z;            (* yaml:"port" *)
  Interface : string   (* yaml:"interface" *)
}.

Record Config : Type := mkConfig {
  Records : gmap string string;   (* yaml:"records" *)
  FallbackDNS : string;           (* yaml:"fallback_dns" *)
  Server_UDP : ServerConfig;      (* yaml:"server" / "udp" *)
  Server_TCP : ServerConfig       (* yaml:"server" / "tcp" *)
}.

(** The zero value [ServerConfig{}] and [Config{}]: the package variable
    [config] before the first load, and what [yaml.Unmarshal] fills in. *)
Definition zeroServerConfig : ServerConfig := mkServerConfig false 0 "".
Definition zeroConfig : Config :=
  mkConfig ∅ "" zeroServerConfig zeroServerConfig.

Definition withPort (p : Z) (sc : ServerConfig) : ServerConfig :=
  mkServerConfig (Enabled sc) p (Interface sc).
Definition withEnabled (b : bool) (sc : ServerConfig) : ServerConfig :=
  mkServerConfig b (Port sc) (Interface sc).
Definition withUDP (sc : ServerConfig) (c : Config) : Config :=
  mkConfig (Records c) (FallbackDNS c) sc (Server_TCP c).
Definition withTCP (sc : ServerConfig) (c : Config) : Config :=
  mkConfig (Records c) (FallbackDNS c) (Server_UDP c) sc.

(** ** DNS messages, as [github.com/miekg/dns] declares them *)

Record Question : Type := mkQuestion {
  Name : string;
  Qtype : Z;     (* uint16 *)
  Qclass : Z     (* uint16 *)
}.

(** [dns.Msg] with its embedded [MsgHdr]; [RR] is the type of the values of
    the library's resource-record interface. *)
Record Msg (RR : Type) : Type := mkMsg {
  Id : Z;
  Response : bool;
  Opcode : Z;
  Authoritative : bool;
  Truncated : bool;
  RecursionDesired : bool;
  RecursionAvailable : bool;
  Zero : bool;
  AuthenticatedData : bool;
  CheckingDisabled : bool;
  Rcode : Z;
  Compress : bool;
  Questions : list Question;    (* the field [Question] *)
  Answer : list RR;
  Ns : list RR;
  Extra : list RR
}.
Arguments mkMsg {RR}.
Arguments Id {RR}.
Arguments Response {RR}.
Arguments Opcode {RR}.
Arguments Authoritative {RR}.
Arguments Truncated {RR}.
Arguments RecursionDesired {RR}.
Arguments RecursionAvailable {RR}.
Arguments Zero {RR}.
Arguments AuthenticatedData {RR}.
Arguments CheckingDisabled {RR}.
Arguments Rcode {RR}.
Arguments Compress {RR}.
Arguments Questions {RR}.
Arguments Answer {RR}.
Arguments Ns {RR}.
Arguments Extra {RR}.

(** The library's constants (RFC 1035 numbers). *)
Definition TypeA : Z := 1.
Definition OpcodeQuery : Z := 0.
Definition RcodeSuccess : Z := 0.
Definition RcodeServerFailure : Z := 2.
Definition RcodeNameError : Z := 3.
Definition RcodeNotImplemented : Z := 4.

(** [new(dns.Msg)] *)
Definition newMsg {RR} : Msg RR :=
  mkMsg 0 false 0 false false false false false false false 0 false [] [] [] [].

Definition withRcode {RR} (rc : Z) (m : Msg RR) : Msg RR :=
  mkMsg (Id m) (Response m) (Opcode m) (Authoritative m) (Truncated m)
        (RecursionDesired m) (RecursionAvailable m) (Zero m)
        (AuthenticatedData m) (CheckingDisabled m) rc (Compress m)
        (Questions m) (Answer m) (Ns m) (Extra m).

Definition withAnswer {RR} (a : list RR) (m : Msg RR) : Msg RR :=
  mkMsg (Id m) (Response m) (Opcode m) (Authoritative m) (Truncated m)
        (RecursionDesired m) (RecursionAvailable m) (Zero m)
        (AuthenticatedData m) (CheckingDisabled m) (Rcode m) (Compress m)
        (Questions m) a (Ns m) (Extra m).

Definition withAuthoritative {RR} (b : bool) (m : Msg RR) : Msg RR :=
  mkMsg (Id m) (Response m) (Opcode m) b (Truncated m)
        (RecursionDesired m) (RecursionAvailable m) (Zero m)
        (AuthenticatedData m) (CheckingDisabled m) (Rcode m) (Compress m)
        (Questions m) (Answer m) (Ns m) (Extra m).

(** Modelled from the spec: [Msg.SetReply] is code of the miekg/dns
    library, which is not under src/.  Section 4.6 describes its result as a
    structural reply to the incoming message (reply flag set, same
    transaction identifier) and section 6 gives NOERROR as the code of a
    reply nothing else touched; the body follows the library's text: copy
    the id and the opcode, copy the rd and cd bits of a standard query, set
    the code to success and keep the first question. *)
Definition SetReply {RR} (m request : Msg RR) : Msg RR :=
  let rd := if Opcode request =? OpcodeQuery
            then RecursionDesired request else RecursionDesired m in
  let cd := if Opcode request =? OpcodeQuery
            then CheckingDisabled request else CheckingDisabled m in
  let qs := match Questions request with
            | q :: _ => [q]
            | [] => Questions m
            end in
  mkMsg (Id request) true (Opcode request) (Authoritative m) (Truncated m)
        rd (RecursionAvailable m) (Zero m)
        (AuthenticatedData m) cd RcodeSuccess (Compress m)
        qs (Answer m) (Ns m) (Extra m).

(** ** What the program gets from outside *)

(** The calls of [main.go] into its libraries and its environment.
    - [NewRR] is [dns.NewRR]: it parses one line of zone-file text; [RR]
      also holds the nil interface value the library returns for a line
      without a record.
    - [MapUnicodeToLower] is the non-ASCII path of [strings.ToLower].
    - [Exchange] is [Client.Exchange] with the client's [Net] field
      as its first argument after the state of the network: it returns the
      upstream message or an error and the network moves on.
    - [Unmarshal] is [yaml.Unmarshal] into a zero [Config]. *)
Class External : Type := {
  RR : Type;
  NewRR : string -> Result RR;
  MapUnicodeToLower : string -> string;
  NetState : Type;
  Exchange : NetState -> string -> Msg RR -> string
             -> Result (Msg RR) * NetState;
  Unmarshal : string -> Result Config
}.

(** [dns.ResponseWriter]: the handler asks it for the requester's network
    ([w.RemoteAddr().Network()], "udp" or "tcp") and writes the reply. *)
Record ResponseWriter : Type := mkResponseWriter {
  RemoteNetwork : string
}.

(** What the handler does to the world, in order. *)
Inductive Event {E : External} : Type :=
| EvExchange (clientNet : string) (m : Msg RR) (address : string)
| EvWriteMsg (m : Msg RR).

(** ** loadConfig (lines 66-101) *)

Section Program.
Context {E : External}.

(** [file] is what [os.ReadFile(configFile)] returns at this call;
    [config] is the package variable.  The result is the returned error
    ([None] for nil) and the package variable afterwards.  The log lines
    are left out. *)
Definition loadConfig (file : Result string) (config : Config)
  : option error * Config :=
  match file with
  | Err e => (Some ("failed to read config file: " +:+ e), config)
  | Ok data =>
      match Unmarshal data with
      | Err e => (Some ("failed to unmarshal config: " +:+ e), config)
      | Ok newConfig =>
          let config := newConfig in
          let config :=
            if Port (Server_UDP config) <=? 0
            then withUDP (withPort 53 (Server_UDP config)) config
            else config in
          let config :=
            if Port (Server_TCP config) <=? 0
            then withTCP (withPort 53 (Server_TCP config)) config
            else config in
          (None, config)
      end
  end.

(** ** watchConfig (lines 103-142) *)

(** [fsnotify.Op] bits and [Op.Has]. *)
Definition OpCreate : Z := 1.
Definition OpWrite : Z := 2.
Definition OpHas (o h : Z) : bool := negb (Z.land o h =? 0).

(** One turn of the [select]: an event (with what the file reads as at
    that moment), an error of the watcher, or a closed channel. *)
Inductive WatchInput : Type :=
| WEvent (op : Z) (file : Result string)
| WError (e : error)
| WClosed.

(** The body of the loop: the package variable afterwards, and whether
    the loop goes on. *)
Definition watchStep (config : Config) (i : WatchInput) : Config * bool :=
  match i with
  | WClosed => (config, false)
  | WError _ => (config, true)
  | WEvent op file =>
      if OpHas op OpWrite || OpHas op OpCreate
      then (snd (loadConfig file config), true)
      else (config, true)
  end.

(** The loop over the inputs that arrive, until a channel is closed. *)
Fixpoint watchConfig (config : Config) (inputs : list WatchInput) : Config :=
  match inputs with
  | [] => config
  | i :: rest =>
      let '(config', continue) := watchStep config i in
      if continue then watchConfig config' rest else config'
  end.

(** ** handleDNSRequest (lines 144-205) *)

(** The loop carries the reply under construction ([msg]), the state of
    the network and the events so far. *)
Record HState : Type := mkHState {
  hsMsg : Msg RR;
  hsNet : NetState;
  hsTrace : list Event
}.

(** The key of the map read at line 159. *)
Definition lookupKey (name : string) : string :=
  ToLower MapUnicodeToLower (TrimSuffix name ".").

(** Lines 157-174: [Some] is a [continue], [None] falls through to the
    relay. *)
Definition resolveLocal (config : Config) (st : HState) (q : Question)
  : option HState :=
  if Qtype q =? TypeA then
    match Records config !! lookupKey (Name q) with
    | Some ip =>
        match NewRR (Name q +:+ " A " +:+ ip) with
        | Ok rr =>
            Some (mkHState
                    (withAnswer (Answer (hsMsg st) ++ [rr]) (hsMsg st))
                    (hsNet st) (hsTrace st))
        | Err _ =>
            Some (mkHState (withRcode RcodeServerFailure (hsMsg st))
                           (hsNet st) (hsTrace st))
        end
    | None => None
    end
  else None.

(** Lines 184-198. *)
Definition relay (config : Config) (w : ResponseWriter) (r : Msg RR)
           (st : HState) : HState :=
  let fallbackDNS := FallbackDNS config in
  if String.eqb fallbackDNS "" then
    mkHState (withRcode RcodeNameError (hsMsg st)) (hsNet st) (hsTrace st)
  else
    let cNet := RemoteNetwork w in
    let address := fallbackDNS +:+ ":53" in
    let '(res, net') := Exchange (hsNet st) cNet r address in
    let trace := hsTrace st ++ [EvExchange cNet r address] in
    match res with
    | Err _ => mkHState (withRcode RcodeServerFailure (hsMsg st)) net' trace
    | Ok inMsg => mkHState inMsg net' trace
    end.

(** The body of the [for] at line 149. *)
Definition handleQuestion (config : Config) (w : ResponseWriter)
           (r : Msg RR) (st : HState) (q : Question) : HState :=
  match resolveLocal config st q with
  | Some st' => st'
  | None => relay config w r st
  end.

(** The whole handler, for one snapshot of the package variable: the
    final state, whose trace ends with the write of the reply.  The error
    of [w.WriteMsg] is only logged. *)
Definition handleDNSRequest (config : Config) (w : ResponseWriter)
           (r : Msg RR) (net : NetState) : HState :=
  let msg := SetReply newMsg r in
  let msg := withAuthoritative true msg in
  let st := fold_left (handleQuestion config w r) (Questions r)
                      (mkHState msg net []) in
  mkHState (hsMsg st) (hsNet st) (hsTrace st ++ [EvWriteMsg (hsMsg st)]).

(** The state the loop starts from (lines 145-147). *)
Definition startState (r : Msg RR) (net : NetState) : HState :=
  mkHState (withAuthoritative true (SetReply newMsg r)) net [].

(** The loop of the handler alone. *)
Definition questionLoop (config : Config) (w : ResponseWriter)
           (r : Msg RR) (qs : list Question) (st : HState) : HState :=
  fold_left (handleQuestion config w r) qs st.

(** The message passed to [w.WriteMsg]. *)
Definition reply (config : Config) (w : ResponseWriter) (r : Msg RR)
           (net : NetState) : Msg RR :=
  hsMsg (handleDNSRequest config w r net).

(** *** Vocabulary of the properties *)

(** The address the snapshot holds for a question: the test of lines
    157-162, [exists] and [ip]. *)
Definition localMatch (config : Config) (q : Question) : option string :=
  if Qtype q =? TypeA then Records config !! lookupKey (Name q) else None.

(** The outcome of the exchange the relay makes from a given state. *)
Definition relayOutcome (config : Config) (w : ResponseWriter)
           (r : Msg RR) (st : HState) : Result (Msg RR) * NetState :=
  Exchange (hsNet st) (RemoteNetwork w) r (FallbackDNS config +:+ ":53").

Definition relayEvent (config : Config) (w : ResponseWriter) (r : Msg RR)
  : Event :=
  EvExchange (RemoteNetwork w) r (FallbackDNS config +:+ ":53").

(** A snapshot without one of its records. *)
Definition dropRecord (k : string) (c : Config) : Config :=
  mkConfig (delete k (Records c)) (FallbackDNS c)
           (Server_UDP c) (Server_TCP c).

(** A load that cannot succeed: the file cannot be read, or it does not
    decode. *)
Definition loadFails (file : Result string) : bool :=
  match file with
  | Err _ => true
  | Ok data => negb (isOk (Unmarshal data))
  end.

Definition defaultedPort (p : Z) : Z := if p <=? 0 then 53 else p.

(** ** main (lines 207-284) *)

Record Listener : Type := mkListener {
  Addr : string;
  ListenNet : string
}.

(** [fmt.Sprintf("%s:%d", iface, port)] *)
Definition listenAddr (iface : string) (port : Z) : string :=
  iface +:+ ":" +:+ NilZero.string_of_int (Z.to_int port).

(** Where [main] stands when it blocks on [errChan], or how it died
    before.  The watcher runs beside it and is not part of this
    result. *)
Inductive MainResult : Type :=
| FatalInitialLoad (e : error)
| FatalNoServers
| Serving (config : Config) (listeners : list Listener) (servers : Z).

(** Lines 213-227: the defaults [main] applies after the first load. *)
Definition startupDefaults (config : Config) : Config :=
  let config :=
    if Port (Server_UDP config) <=? 0
    then withUDP (withPort 53 (Server_UDP config)) config
    else config in
  let config :=
    if Port (Server_TCP config) <=? 0
    then withTCP (withPort 53 (Server_TCP config)) config
    else config in
  if negb (Enabled (Server_UDP config)) && negb (Enabled (Server_TCP config))
  then withTCP (withEnabled true (Server_TCP config))
               (withUDP (withEnabled true (Server_UDP config)) config)
  else config.

(** Lines 235-279: count and start the listeners. *)
Definition startListeners (config : Config) : MainResult :=
  let servers := 0 in
  let udp := Server_UDP config in
  let '(servers, listeners) :=
    if Enabled udp
    then (servers + 1,
          [mkListener (listenAddr (Interface udp) (Port udp)) "udp"])
    else (servers, []) in
  let tcp := Server_TCP config in
  let '(servers, listeners) :=
    if Enabled tcp
    then (servers + 1,
          listeners
            ++ [mkListener (listenAddr (Interface tcp) (Port tcp)) "tcp"])
    else (servers, listeners) in
  if servers =? 0 then FatalNoServers
  else Serving config listeners servers.

Definition main (file : Result string) : MainResult :=
  match loadConfig file zeroConfig with
  | (Some e, _) => FatalInitialLoad ("Failed to load initial config: " +:+ e)
  | (None, config) => startListeners (startupDefaults config)
  end.

End Program.

(** ** More vocabulary for the handler *)

Section HandlerVocabulary.
Context {E : External}.

(** The record a question gets from the snapshot: it matches locally and
    [dns.NewRR] builds a record from the line. *)
Definition answered (config : Config) (q : Question) : option RR :=
  match localMatch config q with
  | Some ip =>
      match NewRR (Name q +:+ " A " +:+ ip) with
      | Ok rr => Some rr
      | Err _ => None
      end
  | None => None
  end.

(** The records of the questions answered locally, in the order of the
    questions. *)
Definition localAnswers (config : Config) (qs : list Question) : list RR :=
  omap (answered config) qs.

Definition unmatched (config : Config) (q : Question) : bool :=
  match localMatch config q with
  | Some _ => false
  | None => true
  end.

(** How many questions reach the exchange of line 191. *)
Definition relayCount (config : Config) (qs : list Question) : nat :=
  if String.eqb (FallbackDNS config) "" then 0%nat
  else length (List.filter (unmatched config) qs).

(** The transports [main] starts for a decoded document. *)
Definition udpStarted (doc : Config) : bool :=
  Enabled (Server_UDP doc) || negb (Enabled (Server_TCP doc)).
Definition tcpStarted (doc : Config) : bool :=
  Enabled (Server_TCP doc) || negb (Enabled (Server_UDP doc)).

(** An input of the watcher that leaves the snapshot as it is. *)
Definition keepsSnapshot (i : WatchInput) : bool :=
  match i with
  | WClosed => true
  | WError _ => true
  | WEvent op file =>
      negb (OpHas op OpWrite || OpHas op OpCreate) || loadFails file
  end.

Definition isClosed (i : WatchInput) : bool :=
  match i with
  | WClosed => true
  | _ => false
  end.

End HandlerVocabulary.

(** ** init (lines 31-64) *)

Definition defaultConfigPath : string := "/app/config/config.yaml".

Section Init.
(** [Stat path] holds when [os.Stat(path)] returns a nil error; [Getwd] is
    the result of [os.Getwd()]; [Join] is [filepath.Join] on two
    elements. *)
Variable Stat : string -> bool.
Variable Getwd : Result string.
Variable Join : string -> string -> string.

(** The value [init] leaves in [configFile]. *)
Definition init : string :=
  if Stat defaultConfigPath then defaultConfigPath
  else
    match Getwd with
    | Err _ => defaultConfigPath
    | Ok pwd =>
        let localConfigPath := Join pwd "config.yaml" in
        if Stat localConfigPath then localConfigPath
        else defaultConfigPath
    end.
End Init.

(** ** The earlier revision of the program (main.go, lines 285-456)

    The file keeps an earlier revision after its separator: a [Config]
    without the server section and a handler that refuses every question
    that is not of type A. *)

Module Earlier.

Record Config : Type := mkConfig {
  Records : gmap string string;   (* yaml:"records" *)
  FallbackDNS : string            (* yaml:"fallback_dns" *)
}.

Section Program.
Context {E : External}.

(** The body of the [for] at line 376.  The client is [new(dns.Client)]
    with its [Net] field left empty. *)
Definition handleQuestion (config : Config) (r : Msg RR) (st : HState)
           (q : Question) : HState :=
  if Qtype q =? TypeA then
    let found := Records config !! lookupKey (Name q) in
    let fallbackDNS := FallbackDNS config in
    match found with
    | Some ip =>
        match NewRR (Name q +:+ " A " +:+ ip) with
        | Ok rr =>
            mkHState (withAnswer (Answer (hsMsg st) ++ [rr]) (hsMsg st))
                     (hsNet st) (hsTrace st)
        | Err _ =>
            mkHState (withRcode RcodeServerFailure (hsMsg st))
                     (hsNet st) (hsTrace st)
        end
    | None =>
        if String.eqb fallbackDNS "" then
          mkHState (withRcode RcodeNameError (hsMsg st))
                   (hsNet st) (hsTrace st)
        else
          let address := fallbackDNS +:+ ":53" in
          let '(res, net') := Exchange (hsNet st) "" r address in
          let trace := hsTrace st ++ [EvExchange "" r address] in
          match res with
          | Err _ =>
              mkHState (withRcode RcodeServerFailure (hsMsg st)) net' trace
          | Ok inMsg => mkHState inMsg net' trace
          end
    end
  else
    mkHState (withRcode RcodeNotImplemented (hsMsg st))
             (hsNet st) (hsTrace st).

Definition questionLoop (config : Config) (r : Msg RR)
           (qs : list Question) (st : HState) : HState :=
  fold_left (handleQuestion config r) qs st.

(** Lines 371-420. *)
Definition handleDNSRequest (config : Config) (r : Msg RR) (net : NetState)
  : HState :=
  let msg := SetReply newMsg r in
  let msg := withAuthoritative true msg in
  let st := fold_left (handleQuestion config r) (Questions r)
                      (mkHState msg net []) in
  mkHState (hsMsg st) (hsNet st) (hsTrace st ++ [EvWriteMsg (hsMsg st)]).

End Program.

End Earlier.

(** ** An environment to run the program in

    One concrete [External], used to evaluate the program on the scenarios
    of section 8 of the specification.  Each piece agrees with the library
    it stands for on the inputs the scenarios use. *)

Module Scenario.

(** An address record: owner name and IPv4 text. *)
Inductive ARecord : Type :=
| A (owner : string) (address : string).

Definition isDigit (c : ascii) : bool :=
  (48 <=? nat_of_ascii c)%nat && (nat_of_ascii c <=? 57)%nat.

Fixpoint splitOn (sep : ascii) (s : string) : list string :=
  match s with
  | EmptyString => [EmptyString]
  | String c s' =>
      let parts := splitOn sep s' in
      if Ascii.eqb c sep then EmptyString :: parts
      else match parts with
           | p :: ps => String c p :: ps
           | [] => [String c EmptyString]
           end
  end.

Fixpoint decimalValue (acc : nat) (s : string) : option nat :=
  match s with
  | EmptyString => Some acc
  | String c s' =>
      if isDigit c
      then decimalValue (10 * acc + (nat_of_ascii c - 48)) s'
      else None
  end.

Definition isOctet (s : string) : bool :=
  (1 <=? String.length s)%nat && (String.length s <=? 3)%nat
  && match decimalValue 0 s with
     | Some v => (v <=? 255)%nat
     | None => false
     end.

Definition isIPv4 (s : string) : bool :=
  match splitOn "." s with
  | [a; b; c; d] => isOctet a && isOctet b && isOctet c && isOctet d
  | _ => false
  end.

(** [dns.NewRR] on a line [<owner> A <dotted quad>]; every other line is
    refused. *)
Definition parseA (line : string) : Result ARecord :=
  match splitOn " " line with
  | [owner; ty; ip] =>
      if negb (String.eqb owner "") && String.eqb ty "A" && isIPv4 ip
      then Ok (A owner ip)
      else Err "dns: not an address record"
  | _ => Err "dns: not an address record"
  end.

(** The upstream resolver as a script: the outcomes of the exchanges to
    come, in order; an exhausted script times out. *)
Definition Script : Type := list (Result (Msg ARecord)).

Definition play (net : Script) (clientNet : string) (m : Msg ARecord)
           (address : string) : Result (Msg ARecord) * Script :=
  match net with
  | outcome :: rest => (outcome, rest)
  | [] => (Err "i/o timeout", [])
  end.

(** The documents of the scenarios, in YAML flow style, with the [Config]
    the decoder fills in for each. *)
Definition docLocal : string := "{records: {a.test: 10.0.0.1}}".
Definition docRelay : string :=
  "{records: {a.test: 10.0.0.1}, fallback_dns: 10.0.0.53}".
Definition docDisabled : string :=
  "{server: {udp: {enabled: false}, tcp: {enabled: false}}}".
Definition docTcpOnly : string :=
  "{server: {udp: {port: -1}, tcp: {enabled: true, port: 5353}}}".
Definition docBroken : string := "{records: [".

Definition localRecords : gmap string string :=
  {[ "a.test" := "10.0.0.1" ]}.

Definition cfgLocal : Config :=
  mkConfig localRecords "" zeroServerConfig zeroServerConfig.
Definition cfgRelay : Config :=
  mkConfig localRecords "10.0.0.53" zeroServerConfig zeroServerConfig.
Definition cfgTcpOnly : Config :=
  mkConfig ∅ "" (mkServerConfig false (-1) "") (mkServerConfig true 5353 "").

Definition documents : list (string * Config) :=
  [ (docLocal, cfgLocal); (docRelay, cfgRelay);
    (docDisabled, zeroConfig); (docTcpOnly, cfgTcpOnly) ].

Fixpoint decode (table : list (string * Config)) (data : string)
  : Result Config :=
  match table with
  | [] => Err "yaml: cannot decode the document"
  | (doc, c) :: rest => if String.eqb doc data then Ok c else decode rest data
  end.

#[export] Instance env : External := {
  RR := ARecord;
  NewRR := parseA;
  MapUnicodeToLower := mapBytes lowerByte;
  NetState := Script;
  Exchange := play;
  Unmarshal := decode documents
}.

Definition udpWriter : ResponseWriter := mkResponseWriter "udp".
Definition tcpWriter : ResponseWriter := mkResponseWriter "tcp".

(** A query message with the given questions. *)
Definition query (qs : list Question) : Msg RR :=
  mkMsg 4242 false OpcodeQuery false false true false false false false 0
        false qs [] [] [].

Definition TypeMX : Z := 15.
Definition ClassINET : Z := 1.

(** An upstream answer to [query qs] with the given code and answers. *)
Definition upstream (qs : list Question) (rc : Z) (ans : list ARecord)
  : Msg RR :=
  mkMsg 4242 true OpcodeQuery false false true true false false false rc
        false qs ans [] [].

Definition qA (name : string) : Question := mkQuestion name TypeA ClassINET.
Definition qMX (name : string) : Question :=
  mkQuestion name TypeMX ClassINET.

(** A snapshot whose only key ends in a dot: the presentation form of a
    label that ends in a dot byte. *)
Definition cfgDotted : Config :=
  mkConfig {[ "a\." := "10.0.0.2" ]} "" zeroServerConfig zeroServerConfig.

(** A snapshot whose only key has upper-case letters. *)
Definition cfgUpper : Config :=
  mkConfig {[ "A.Test" := "10.0.0.3" ]} "" zeroServerConfig
           zeroServerConfig.

(** A snapshot whose address is not an IPv4 literal. *)
Definition cfgMalformed : Config :=
  mkConfig {[ "a.test" := "::1" ]} "10.0.0.53" zeroServerConfig
           zeroServerConfig.

(** A message with three questions, and the upstream answers to it. *)
Definition threeQuestions : list Question :=
  [qMX "a.test."; qMX "b.test."; qA "a.test."].
Definition upstreamFirst : Msg RR :=
  upstream threeQuestions RcodeSuccess [].
Definition upstreamSecond : Msg RR :=
  upstream threeQuestions RcodeNameError [].

End Scenario.

(** ** The string functions on examples *)

Example TrimSuffix_one_dot : TrimSuffix "a.test." "." = "a.test".
Proof. reflexivity. Qed.

Example TrimSuffix_two_dots : TrimSuffix "a.test.." "." = "a.test.".
Proof. reflexivity. Qed.

Example TrimSuffix_plain_name : TrimSuffix "a.test" "." = "a.test".
Proof. reflexivity. Qed.

Example ToLower_mixed_case : ToLower (fun s => s) "A.Test" = "a.test".
Proof. reflexivity. Qed.
(** * Properties *)

(** ** Strings *)

Section StringFacts.

Lemma HasSuffix_dot_cons (c d : ascii) (s : string) :
  HasSuffix (String c (String d s)) "." = HasSuffix (String d s) ".".
Proof.
  unfold HasSuffix. cbn [String.length Nat.leb Nat.sub].
  rewrite !Nat.sub_0_r. reflexivity.
Qed.

Lemma TrimSuffix_dot_cons (c d : ascii) (s : string) :
  TrimSuffix (String c (String d s)) "."
  = String c (TrimSuffix (String d s) ".").
Proof.
  unfold TrimSuffix. rewrite HasSuffix_dot_cons.
  destruct (HasSuffix (String d s) "."); [| reflexivity].
  cbn [String.length Nat.sub]. rewrite !Nat.sub_0_r. reflexivity.
Qed.

(** The one trailing dot of a name is removed. *)
Lemma TrimSuffix_app_dot (s : string) : TrimSuffix (s +:+ ".") "." = s.
Proof.
  induction s as [| c s IH]; [reflexivity |].
  destruct s as [| d s].
  - reflexivity.
  - change (String c (String d s) +:+ ".")
      with (String c (String d (s +:+ "."))).
    rewrite TrimSuffix_dot_cons. f_equal. exact IH.
Qed.

Lemma HasSuffix_app_dot (s : string) : HasSuffix (s +:+ ".") "." = true.
Proof.
  induction s as [| c s IH]; [reflexivity |].
  destruct s as [| d s]; [reflexivity |].
  change (String c (String d s) +:+ ".")
    with (String c (String d (s +:+ "."))).
  rewrite HasSuffix_dot_cons. exact IH.
Qed.

Lemma HasSuffix_dot_inv (s : string) :
  HasSuffix s "." = true -> exists s', s = s' +:+ ".".
Proof.
  induction s as [| c s IH]; [discriminate |].
  destruct s as [| d s].
  - unfold HasSuffix. cbn. intros H.
    destruct (Ascii.eqb_spec c ".") as [-> |]; [| discriminate].
    exists "". reflexivity.
  - rewrite HasSuffix_dot_cons. intros H.
    destruct (IH H) as [s' Hs']. exists (String c s').
    change (String c s' +:+ ".") with (String c (s' +:+ ".")).
    f_equal. exact Hs'.
Qed.

Lemma TrimSuffix_no_dot (s : string) :
  HasSuffix s "." = false -> TrimSuffix s "." = s.
Proof. unfold TrimSuffix. now intros ->. Qed.

Lemma lowerByte_not_upper (c : ascii) : isUpperByte (lowerByte c) = false.
Proof. destruct c as [[] [] [] [] [] [] [] []]; reflexivity. Qed.

Lemma lowerByte_id (c : ascii) : isUpperByte c = false -> lowerByte c = c.
Proof. unfold lowerByte. now intros ->. Qed.

Lemma lowerByte_dot (c : ascii) :
  Ascii.eqb (lowerByte c) "." = Ascii.eqb c ".".
Proof. destruct c as [[] [] [] [] [] [] [] []]; reflexivity. Qed.

Lemma mapBytes_lower_id (s : string) :
  hasUpper s = false -> mapBytes lowerByte s = s.
Proof.
  induction s as [| c s IH]; [reflexivity |].
  cbn [hasUpper mapBytes]. intros H.
  apply orb_false_iff in H as [Hc Hs].
  now rewrite lowerByte_id, IH.
Qed.

Lemma hasUpper_mapBytes_lower (s : string) :
  hasUpper (mapBytes lowerByte s) = false.
Proof.
  induction s as [| c s IH]; [reflexivity |].
  cbn [hasUpper mapBytes]. now rewrite lowerByte_not_upper, IH.
Qed.

Lemma hasUpper_InStr (s : string) :
  hasUpper s = true <-> exists c, InStr c s /\ isUpperByte c = true.
Proof.
  induction s as [| d s IH]; cbn [hasUpper InStr].
  - split; [discriminate | intros (c & [] & _)].
  - rewrite orb_true_iff, IH. split.
    + intros [Hd | (c & Hin & Hc)]; [exists d | exists c]; tauto.
    + intros (c & [-> | Hin] & Hc); [now left | right; now exists c].
Qed.

Lemma HasSuffix_dot_mapBytes_lower (s : string) :
  HasSuffix (mapBytes lowerByte s) "." = HasSuffix s ".".
Proof.
  induction s as [| c s IH]; [reflexivity |].
  destruct s as [| d s].
  - unfold HasSuffix. cbn. now rewrite lowerByte_dot.
  - cbn [mapBytes] in *. now rewrite !HasSuffix_dot_cons.
Qed.

(** On ASCII-only text [strings.ToLower] is the byte-wise shift. *)
Lemma ToLower_ascii (M : string -> string) (s : string) :
  isASCII s = true -> ToLower M s = mapBytes lowerByte s.
Proof.
  unfold ToLower. intros ->.
  destruct (hasUpper s) eqn:Hu; [reflexivity |].
  symmetry. now apply mapBytes_lower_id.
Qed.

End StringFacts.

(** ** The handler on one question *)

Section HandlerFacts.
Context {E : External}.
Implicit Types (config : Config) (w : ResponseWriter) (r : Msg RR)
         (q : Question) (st : HState) (net : NetState).

Lemma handleDNSRequest_loop config w r net :
  handleDNSRequest config w r net
  = let st := questionLoop config w r (Questions r) (startState r net) in
    mkHState (hsMsg st) (hsNet st) (hsTrace st ++ [EvWriteMsg (hsMsg st)]).
Proof. reflexivity. Qed.

Lemma reply_loop config w r net :
  reply config w r net
  = hsMsg (questionLoop config w r (Questions r) (startState r net)).
Proof. reflexivity. Qed.

Lemma startState_Rcode r net : Rcode (hsMsg (startState r net)) = RcodeSuccess.
Proof. reflexivity. Qed.

Lemma startState_Answer r net : Answer (hsMsg (startState r net)) = [].
Proof. reflexivity. Qed.

(** The three ways out of the local test. *)
Lemma resolveLocal_hit config st q ip rr :
  localMatch config q = Some ip ->
  NewRR (Name q +:+ " A " +:+ ip) = Ok rr ->
  resolveLocal config st q
  = Some (mkHState (withAnswer (Answer (hsMsg st) ++ [rr]) (hsMsg st))
                   (hsNet st) (hsTrace st)).
Proof.
  unfold localMatch, resolveLocal. destruct (Qtype q =? TypeA); [| discriminate].
  now intros -> ->.
Qed.

Lemma resolveLocal_malformed config st q ip e :
  localMatch config q = Some ip ->
  NewRR (Name q +:+ " A " +:+ ip) = Err e ->
  resolveLocal config st q
  = Some (mkHState (withRcode RcodeServerFailure (hsMsg st))
                   (hsNet st) (hsTrace st)).
Proof.
  unfold localMatch, resolveLocal. destruct (Qtype q =? TypeA); [| discriminate].
  now intros -> ->.
Qed.

Lemma resolveLocal_miss config st q :
  localMatch config q = None -> resolveLocal config st q = None.
Proof.
  unfold localMatch, resolveLocal. destruct (Qtype q =? TypeA); [| reflexivity].
  now intros ->.
Qed.

Lemma relay_no_fallback config w r st :
  FallbackDNS config = "" ->
  relay config w r st
  = mkHState (withRcode RcodeNameError (hsMsg st)) (hsNet st) (hsTrace st).
Proof. unfold relay. now intros ->. Qed.

Lemma relay_exchange config w r st :
  FallbackDNS config <> "" ->
  relay config w r st
  = let '(res, net') := relayOutcome config w r st in
    let trace := hsTrace st ++ [relayEvent config w r] in
    match res with
    | Err _ => mkHState (withRcode RcodeServerFailure (hsMsg st)) net' trace
    | Ok inMsg => mkHState inMsg net' trace
    end.
Proof.
  unfold relay. intros H. apply String.eqb_neq in H. now rewrite H.
Qed.

Lemma handleQuestion_miss config w r st q :
  localMatch config q = None ->
  handleQuestion config w r st q = relay config w r st.
Proof. unfold handleQuestion. intros H. now rewrite resolveLocal_miss. Qed.

Lemma localMatch_not_A config q :
  Qtype q <> TypeA -> localMatch config q = None.
Proof.
  unfold localMatch. intros H. apply Z.eqb_neq in H. now rewrite H.
Qed.

Lemma localMatch_absent config q :
  Records config !! lookupKey (Name q) = None -> localMatch config q = None.
Proof. unfold localMatch. intros ->. now destruct (Qtype q =? TypeA). Qed.

Lemma localMatch_A config q :
  Qtype q = TypeA ->
  localMatch config q = Records config !! lookupKey (Name q).
Proof. unfold localMatch. now intros ->. Qed.

End HandlerFacts.

Section Claims.
Context {E : External}.
Implicit Types (config : Config) (w : ResponseWriter) (r : Msg RR)
         (q : Question) (st : HState) (net : NetState).

(** C1, as amended.  With an empty fallback, a message whose single
    question has a record type other than A is answered with response
    code NXDOMAIN (NameError), not NOTIMP: the handler has no NOTIMP
    path, every question without a local match goes to the relay branch,
    which sets NameError when no fallback is configured.  No answer is
    added and no exchange is made. *)
Theorem C1_non_address_question_without_fallback config w r net q :
  FallbackDNS config = "" ->
  Questions r = [q] ->
  Qtype q <> TypeA ->
  Rcode (reply config w r net) = RcodeNameError
  /\ Answer (reply config w r net) = []
  /\ hsTrace (handleDNSRequest config w r net)
     = [EvWriteMsg (reply config w r net)].
Proof.
  intros Hfb Hq Hty.
  unfold reply. rewrite handleDNSRequest_loop, Hq. cbn [questionLoop fold_left].
  rewrite handleQuestion_miss by now apply localMatch_not_A.
  rewrite relay_no_fallback by assumption.
  repeat split.
Qed.

(** C2.  When the single question has type A and the snapshot binds its
    name, lower-cased and without its one trailing dot, to an address
    from which [dns.NewRR] builds a record for the line
    "<queried name> A <address>" (the library decides there whether the
    address is a well-formed IPv4 literal), the reply has response code
    NOERROR and exactly that record as its only answer; nothing is
    relayed, whatever the fallback is.  The case of the queried name and
    its trailing dot only enter through the key of the lookup. *)
Theorem C2_local_address_answer config w r net q ip rr :
  Questions r = [q] ->
  Qtype q = TypeA ->
  Records config !! lookupKey (Name q) = Some ip ->
  NewRR (Name q +:+ " A " +:+ ip) = Ok rr ->
  Rcode (reply config w r net) = RcodeSuccess
  /\ Answer (reply config w r net) = [rr]
  /\ hsTrace (handleDNSRequest config w r net)
     = [EvWriteMsg (reply config w r net)].
Proof.
  intros Hq Hty Hrec Hrr.
  unfold reply. rewrite handleDNSRequest_loop, Hq. cbn [questionLoop fold_left].
  unfold handleQuestion.
  rewrite (resolveLocal_hit _ _ _ ip rr)
    by (rewrite ?localMatch_A; assumption).
  repeat split.
Qed.

(** C3.  With an empty fallback, a message whose single question has a
    normalized name that is not a key of the records is answered with
    response code NXDOMAIN (NameError), and no answer record is added. *)
Theorem C3_unknown_name_without_fallback config w r net q :
  FallbackDNS config = "" ->
  Questions r = [q] ->
  Records config !! lookupKey (Name q) = None ->
  Rcode (reply config w r net) = RcodeNameError
  /\ Answer (reply config w r net) = [].
Proof.
  intros Hfb Hq Hrec.
  unfold reply. rewrite handleDNSRequest_loop, Hq. cbn [questionLoop fold_left].
  rewrite handleQuestion_miss by now apply localMatch_absent.
  rewrite relay_no_fallback by assumption.
  split; reflexivity.
Qed.

End Claims.

(** ** Loading, reloading and start-up *)

Section LoaderFacts.
Context {E : External}.
Implicit Types (config doc : Config) (file : Result string).

Lemma loadConfig_ok data doc config :
  Unmarshal data = Ok doc ->
  loadConfig (Ok data) config
  = (None,
     mkConfig (Records doc) (FallbackDNS doc)
       (withPort (defaultedPort (Port (Server_UDP doc))) (Server_UDP doc))
       (withPort (defaultedPort (Port (Server_TCP doc))) (Server_TCP doc))).
Proof.
  intros H. unfold loadConfig, defaultedPort. rewrite H.
  destruct doc as [recs fb [eu pu iu] [et pt it]].
  unfold withUDP, withTCP, withPort; cbn.
  destruct (pu <=? 0); cbn; destruct (pt <=? 0); reflexivity.
Qed.

Lemma loadConfig_fails file config :
  loadFails file = true ->
  snd (loadConfig file config) = config
  /\ exists e, fst (loadConfig file config) = Some e.
Proof.
  unfold loadFails, loadConfig. destruct file as [data | e].
  - destruct (Unmarshal data) as [c | e]; [discriminate |].
    intros _. split; [reflexivity | eauto].
  - intros _. split; [reflexivity | eauto].
Qed.

(** However many failing reloads the watcher goes through, the snapshot
    it leaves is the one it started with. *)
Lemma watchConfig_failing_reloads config (files : list (Result string)) :
  Forall (fun file => loadFails file = true) files ->
  watchConfig config (map (WEvent OpWrite) files) = config.
Proof.
  induction 1 as [| file files Hfile _ IH]; [reflexivity |].
  cbn [map watchConfig watchStep].
  replace (OpHas OpWrite OpWrite || OpHas OpWrite OpCreate) with true
    by reflexivity.
  destruct (loadConfig_fails file config Hfile) as [-> _].
  exact IH.
Qed.

Lemma defaultedPort_pos p : 0 < defaultedPort p.
Proof. unfold defaultedPort. destruct (p <=? 0) eqn:H; lia. Qed.

Lemma defaultedPort_idem p : defaultedPort (defaultedPort p) = defaultedPort p.
Proof.
  unfold defaultedPort. destruct (p <=? 0) eqn:H; [reflexivity |].
  now rewrite H.
Qed.

Lemma startupDefaults_eq config :
  startupDefaults config
  = let u := withPort (defaultedPort (Port (Server_UDP config)))
                      (Server_UDP config) in
    let t := withPort (defaultedPort (Port (Server_TCP config)))
                      (Server_TCP config) in
    if negb (Enabled u) && negb (Enabled t)
    then mkConfig (Records config) (FallbackDNS config)
                  (withEnabled true u) (withEnabled true t)
    else mkConfig (Records config) (FallbackDNS config) u t.
Proof.
  unfold startupDefaults, defaultedPort.
  destruct config as [recs fb [eu pu iu] [et pt it]].
  unfold withUDP, withTCP, withPort, withEnabled; cbn.
  destruct (pu <=? 0); cbn; destruct (pt <=? 0); cbn;
    destruct eu, et; reflexivity.
Qed.

(** After the defaults of [main] some transport is enabled, so the count
    of listeners is never zero. *)
Lemma startupDefaults_some_enabled config :
  Enabled (Server_UDP (startupDefaults config))
  || Enabled (Server_TCP (startupDefaults config)) = true.
Proof.
  rewrite startupDefaults_eq.
  destruct config as [recs fb [eu pu iu] [et pt it]]; cbn.
  destruct eu, et; reflexivity.
Qed.

Lemma startListeners_not_fatal config :
  Enabled (Server_UDP config) || Enabled (Server_TCP config) = true ->
  startListeners config <> FatalNoServers.
Proof.
  unfold startListeners.
  destruct (Enabled (Server_UDP config)), (Enabled (Server_TCP config));
    cbn; intros H; discriminate.
Qed.

Lemma main_never_without_listener file : main file <> FatalNoServers.
Proof.
  unfold main. destruct (loadConfig file zeroConfig) as [[e |] c].
  - discriminate.
  - apply startListeners_not_fatal, startupDefaults_some_enabled.
Qed.

End LoaderFacts.

Section LoaderClaims.
Context {E : External}.
Implicit Types (config doc : Config) (file : Result string).

(** C4, on the code.  A document that sets both [server.udp.enabled] and
    [server.tcp.enabled] to false decodes to a [Config] with both flags
    false, the same as a document that leaves them out; [main] then
    enables both transports and blocks with two listeners started.  The
    fatal exit for a count of zero is not taken. *)
Theorem C4_both_disabled_starts_both_listeners data doc :
  Unmarshal data = Ok doc ->
  Enabled (Server_UDP doc) = false ->
  Enabled (Server_TCP doc) = false ->
  main (Ok data) <> FatalNoServers
  /\ exists cfg,
      main (Ok data)
      = Serving cfg
          [ mkListener (listenAddr (Interface (Server_UDP doc))
                                   (defaultedPort (Port (Server_UDP doc))))
                       "udp";
            mkListener (listenAddr (Interface (Server_TCP doc))
                                   (defaultedPort (Port (Server_TCP doc))))
                       "tcp" ]
          2
      /\ Enabled (Server_UDP cfg) = true
      /\ Enabled (Server_TCP cfg) = true.
Proof.
  intros Hdoc Hu Ht. split; [apply main_never_without_listener |].
  unfold main. rewrite (loadConfig_ok _ _ _ Hdoc), startupDefaults_eq.
  destruct doc as [recs fb [eu pu iu] [et pt it]]; cbn in Hu, Ht; subst.
  cbn. rewrite !defaultedPort_idem. eexists. repeat split.
Qed.

(** C5, as amended.  Every load that decodes its input, the first one and
    every reload, stores a snapshot whose ports are normalized: the port
    of each transport is 53 when the document's port is unspecified or
    non-positive and the document's port otherwise, hence positive.  The
    enabled flags, the records and the fallback are stored as decoded.
    Enabling both transports when neither is enabled is done by [main]
    on the snapshot of the first load only, for the listeners it starts;
    [loadConfig] does not do it. *)
Theorem C5_load_normalizes_ports data doc config :
  Unmarshal data = Ok doc ->
  let c := snd (loadConfig (Ok data) config) in
  fst (loadConfig (Ok data) config) = None
  /\ Port (Server_UDP c) = defaultedPort (Port (Server_UDP doc))
  /\ Port (Server_TCP c) = defaultedPort (Port (Server_TCP doc))
  /\ 0 < Port (Server_UDP c) /\ 0 < Port (Server_TCP c)
  /\ Enabled (Server_UDP c) = Enabled (Server_UDP doc)
  /\ Enabled (Server_TCP c) = Enabled (Server_TCP doc)
  /\ Records c = Records doc /\ FallbackDNS c = FallbackDNS doc
  /\ watchStep config (WEvent OpWrite (Ok data)) = (c, true)
  /\ main (Ok data)
     = startListeners (startupDefaults (snd (loadConfig (Ok data) zeroConfig)))
  /\ (Enabled (Server_UDP doc) = false ->
      Enabled (Server_TCP doc) = false ->
      Enabled (Server_UDP (startupDefaults c)) = true
      /\ Enabled (Server_TCP (startupDefaults c)) = true).
Proof.
  intros Hdoc c. subst c.
  unfold main, watchStep.
  rewrite !(loadConfig_ok _ _ _ Hdoc). cbn [fst snd].
  repeat split; try reflexivity; try apply defaultedPort_pos.
  all: rewrite startupDefaults_eq.
  all: destruct doc as [recs fb [eu pu iu] [et pt it]]; cbn in *; subst.
  all: reflexivity.
Qed.

(** C6.  When the load fails, because the file cannot be read or because
    it does not decode, [loadConfig] returns an error and the stored
    snapshot is the one from before; the watcher goes on with it, and the
    handler run on the snapshot after the failed reload is the handler
    run on the snapshot before it. *)
Theorem C6_failed_reload_keeps_snapshot file config :
  loadFails file = true ->
  (exists e, fst (loadConfig file config) = Some e)
  /\ snd (loadConfig file config) = config
  /\ (forall op, watchStep config (WEvent op file) = (config, true))
  /\ (forall w r net,
        handleDNSRequest (snd (loadConfig file config)) w r net
        = handleDNSRequest config w r net).
Proof.
  intros H. destruct (loadConfig_fails file config H) as [Hsnd He].
  repeat split.
  - exact He.
  - exact Hsnd.
  - intros op. unfold watchStep. rewrite Hsnd.
    now destruct (OpHas op OpWrite || OpHas op OpCreate).
  - intros w r net. now rewrite Hsnd.
Qed.

End LoaderClaims.

(** ** Relaying *)

Section RelayClaims.
Context {E : External}.
Implicit Types (config : Config) (w : ResponseWriter) (r : Msg RR)
         (q : Question) (st : HState) (net : NetState).

Lemma questionLoop_app config w r qs1 qs2 st :
  questionLoop config w r (qs1 ++ qs2) st
  = questionLoop config w r qs2 (questionLoop config w r qs1 st).
Proof. apply fold_left_app. Qed.

(** A successful relay forgets the reply built so far. *)
Lemma handleQuestion_relayed config w r st q inMsg net' :
  localMatch config q = None ->
  FallbackDNS config <> "" ->
  relayOutcome config w r st = (Ok inMsg, net') ->
  handleQuestion config w r st q
  = mkHState inMsg net' (hsTrace st ++ [relayEvent config w r]).
Proof.
  intros Hm Hfb Hex.
  rewrite handleQuestion_miss, relay_exchange by assumption.
  now rewrite Hex.
Qed.

(** C7, as amended.  For a message with a single question the reply has
    response code SERVFAIL exactly in three cases: the question has type
    A, its name is matched locally and no record can be built from the
    configured address; the question is relayed and the exchange fails;
    the question is relayed, the exchange succeeds and the upstream
    message, which becomes the reply, carries SERVFAIL itself.  In every
    case the handler ends by writing its reply. *)
Theorem C7_servfail_of_single_question config w r net q :
  Questions r = [q] ->
  (Rcode (reply config w r net) = RcodeServerFailure
   <-> (exists ip e,
          Qtype q = TypeA
          /\ Records config !! lookupKey (Name q) = Some ip
          /\ NewRR (Name q +:+ " A " +:+ ip) = Err e)
       \/ (localMatch config q = None /\ FallbackDNS config <> ""
           /\ exists e,
               fst (relayOutcome config w r (startState r net)) = Err e)
       \/ (localMatch config q = None /\ FallbackDNS config <> ""
           /\ exists inMsg,
               fst (relayOutcome config w r (startState r net)) = Ok inMsg
               /\ Rcode inMsg = RcodeServerFailure))
  /\ last (hsTrace (handleDNSRequest config w r net))
     = Some (EvWriteMsg (reply config w r net)).
Proof.
  intros Hq. split; [| unfold reply; rewrite handleDNSRequest_loop;
                       cbn [hsTrace hsMsg]; apply last_snoc].
  unfold reply. rewrite handleDNSRequest_loop, Hq.
  cbn [questionLoop fold_left hsMsg].
  destruct (localMatch config q) as [ip |] eqn:Hm.
  - assert (HA : Qtype q = TypeA).
    { unfold localMatch in Hm. destruct (Qtype q =? TypeA) eqn:Ht;
        [now apply Z.eqb_eq | discriminate]. }
    pose proof Hm as Hrec. rewrite localMatch_A in Hrec by assumption.
    unfold handleQuestion.
    destruct (NewRR (Name q +:+ " A " +:+ ip)) as [rr | e] eqn:Hrr.
    + rewrite (resolveLocal_hit _ _ _ ip rr) by assumption. cbn.
      split; [discriminate |].
      intros [(ip' & e & _ & Hrec' & Herr) | [(Hn & _) | (Hn & _)]];
        try discriminate.
      rewrite Hrec in Hrec'. injection Hrec' as <-.
      rewrite Hrr in Herr. discriminate.
    + rewrite (resolveLocal_malformed _ _ _ ip e) by assumption. cbn.
      split; [| reflexivity]. intros _. left. now exists ip, e.
  - rewrite handleQuestion_miss by assumption.
    destruct (String.eqb_spec (FallbackDNS config) "") as [Hfb | Hfb].
    + rewrite relay_no_fallback by assumption. cbn.
      split; [discriminate |].
      intros [(ip' & e & HA & Hrec' & _) | [(_ & Hn & _) | (_ & Hn & _)]];
        try contradiction.
      rewrite localMatch_A in Hm by assumption. congruence.
    + rewrite relay_exchange by assumption.
      destruct (relayOutcome config w r (startState r net))
        as [[inMsg | e] net'] eqn:Hex; cbn.
      * split.
        -- intros Hrc. right. right. repeat split; try assumption.
           now exists inMsg.
        -- intros [(ip' & e & HA & Hrec' & _)
                  | [(_ & _ & e & He) | (_ & _ & m & Hm' & Hrc)]].
           ++ rewrite localMatch_A in Hm by assumption. congruence.
           ++ discriminate.
           ++ now injection Hm' as ->.
      * split; [| reflexivity]. intros _. right. left.
        repeat split; try assumption. now exists e.
Qed.

(** C8.  With a fallback configured, a message whose single question has
    no local match (it is not of type A, or its name is not a key of the
    records) makes the handler do exactly one exchange, with the
    incoming message itself, over the requester's network, to the
    fallback address followed by ":53", and then write its reply; when
    the exchange succeeds the reply is the upstream message, whole. *)
Theorem C8_relay_is_verbatim config w r net q :
  FallbackDNS config <> "" ->
  Questions r = [q] ->
  localMatch config q = None ->
  hsTrace (handleDNSRequest config w r net)
  = [ EvExchange (RemoteNetwork w) r (FallbackDNS config +:+ ":53");
      EvWriteMsg (reply config w r net) ]
  /\ forall inMsg,
      fst (Exchange net (RemoteNetwork w) r (FallbackDNS config +:+ ":53"))
      = Ok inMsg ->
      reply config w r net = inMsg.
Proof.
  intros Hfb Hq Hm.
  unfold reply. rewrite handleDNSRequest_loop, Hq.
  cbn [questionLoop fold_left hsMsg hsTrace].
  rewrite handleQuestion_miss, relay_exchange by assumption.
  unfold relayOutcome, relayEvent. cbn [startState hsNet hsTrace hsMsg].
  destruct (Exchange net (RemoteNetwork w) r (FallbackDNS config +:+ ":53"))
    as [[m | e] net'] eqn:Hex; cbn.
  - split; [reflexivity |]. now intros inMsg [= ->].
  - split; [reflexivity |]. intros inMsg. discriminate.
Qed.

(** C9, as amended.  Each successful relay replaces the entire reply
    message, so the answers appended and the code set for the questions
    before it are discarded; the questions after it then work on the
    upstream message.  The final reply is therefore the upstream
    response of the last successful relay as changed by the questions
    that follow it, and it equals that response when the successful
    relay is for the last question of the message. *)
Theorem C9_successful_relay_replaces_reply
        config w r net pre q post inMsg net' :
  Questions r = pre ++ q :: post ->
  localMatch config q = None ->
  FallbackDNS config <> "" ->
  let before := questionLoop config w r pre (startState r net) in
  relayOutcome config w r before = (Ok inMsg, net') ->
  reply config w r net
  = hsMsg (questionLoop config w r post
             (mkHState inMsg net'
                       (hsTrace before ++ [relayEvent config w r])))
  /\ (post = [] -> reply config w r net = inMsg).
Proof.
  intros Hq Hm Hfb before Hex.
  assert (Hreply :
            reply config w r net
            = hsMsg (questionLoop config w r post
                       (mkHState inMsg net'
                          (hsTrace before ++ [relayEvent config w r])))).
  { rewrite reply_loop, Hq, questionLoop_app.
    change (questionLoop config w r (q :: post) ?s)
      with (questionLoop config w r post (handleQuestion config w r s q)).
    fold before.
    now rewrite (handleQuestion_relayed _ _ _ _ _ inMsg net'). }
  split; [exact Hreply |].
  intros ->. exact Hreply.
Qed.

End RelayClaims.

(** ** The key of the lookup *)

Section LookupKey.
Context {E : External}.
Implicit Types (config : Config) (w : ResponseWriter) (r : Msg RR)
         (q : Question) (st : HState) (net : NetState).

(** A name in any letter case, with or without its trailing dot, is
    looked up under its lower-case form: the side of C2 that concerns
    the matching. *)
Lemma lookupKey_fold_case (name k : string) :
  isASCII name = true ->
  mapBytes lowerByte name = k ->
  HasSuffix k "." = false ->
  lookupKey name = k /\ lookupKey (name +:+ ".") = k.
Proof.
  intros Hascii Hk Hdot. unfold lookupKey. split.
  - rewrite TrimSuffix_no_dot.
    + now rewrite ToLower_ascii.
    + now rewrite <- HasSuffix_dot_mapBytes_lower, Hk.
  - rewrite TrimSuffix_app_dot. now rewrite ToLower_ascii.
Qed.

(** What the Unicode path of [strings.ToLower] is taken to guarantee: it
    writes no ASCII upper-case byte, and it neither adds nor removes a
    final dot. *)
Hypothesis unicode_no_upper :
  forall s, isASCII s = false -> hasUpper (MapUnicodeToLower s) = false.
Hypothesis unicode_keeps_dot :
  forall s, isASCII s = false ->
            HasSuffix (MapUnicodeToLower s) "." = HasSuffix s ".".

Lemma ToLower_no_upper (s : string) :
  hasUpper (ToLower MapUnicodeToLower s) = false.
Proof.
  destruct (isASCII s) eqn:Ha.
  - rewrite ToLower_ascii by assumption. apply hasUpper_mapBytes_lower.
  - unfold ToLower. rewrite Ha. now apply unicode_no_upper.
Qed.

Lemma ToLower_keeps_dot (s : string) :
  HasSuffix (ToLower MapUnicodeToLower s) "." = HasSuffix s ".".
Proof.
  destruct (isASCII s) eqn:Ha.
  - rewrite ToLower_ascii by assumption. apply HasSuffix_dot_mapBytes_lower.
  - unfold ToLower. rewrite Ha. now apply unicode_keeps_dot.
Qed.

Lemma lookupKey_not_upper (name k : string) :
  hasUpper k = true -> lookupKey name <> k.
Proof.
  intros Hk <-. unfold lookupKey in Hk.
  rewrite ToLower_no_upper in Hk. discriminate.
Qed.

Lemma lookupKey_not_dotted (name k : string) :
  HasSuffix k "." = true ->
  HasSuffix (TrimSuffix name ".") "." = false ->
  lookupKey name <> k.
Proof.
  intros Hk Hn <-. unfold lookupKey in Hk.
  rewrite ToLower_keeps_dot, Hn in Hk. discriminate.
Qed.

(** A record whose key the question does not look up plays no part in
    the handling of that question. *)
Lemma handleQuestion_dropRecord config w r st q k :
  lookupKey (Name q) <> k ->
  handleQuestion (dropRecord k config) w r st q
  = handleQuestion config w r st q.
Proof.
  intros Hne. unfold handleQuestion, resolveLocal, relay, dropRecord.
  cbn [Records FallbackDNS].
  rewrite lookup_delete_ne by congruence. reflexivity.
Qed.

(** C10, as amended.  Normalization is applied to the queried name only,
    never to the configured keys, and the lookup compares the two
    verbatim.  So a record whose key has an ASCII upper-case letter is
    unreachable: the handler behaves on every message as if the record
    were not there.  A record whose key ends in a dot is not reached by
    any question whose name, once its one trailing dot is stripped, does
    not end in a dot.  Whenever a name is looked up under a key, the key
    has no upper-case letter and ends in a dot exactly when the stripped
    name does. *)
Theorem C10_unnormalized_keys config k :
  (hasUpper k = true ->
   forall w r net,
     handleDNSRequest (dropRecord k config) w r net
     = handleDNSRequest config w r net)
  /\ (HasSuffix k "." = true ->
      forall w r st q,
        HasSuffix (TrimSuffix (Name q) ".") "." = false ->
        handleQuestion (dropRecord k config) w r st q
        = handleQuestion config w r st q)
  /\ (forall q, lookupKey (Name q) = k ->
                hasUpper k = false
                /\ HasSuffix k "." = HasSuffix (TrimSuffix (Name q) ".") ".").
Proof.
  split; [| split].
  - intros Hk w r net. rewrite !handleDNSRequest_loop.
    assert (Hloop : forall qs st,
               questionLoop (dropRecord k config) w r qs st
               = questionLoop config w r qs st).
    { induction qs as [| q qs IH]; intros st; [reflexivity |].
      cbn [questionLoop fold_left] in *.
      rewrite handleQuestion_dropRecord by now apply lookupKey_not_upper.
      apply IH. }
    now rewrite Hloop.
  - intros Hk w r st q Hq.
    apply handleQuestion_dropRecord. now apply lookupKey_not_dotted.
  - intros q <-. unfold lookupKey.
    split; [apply ToLower_no_upper | apply ToLower_keeps_dot].
Qed.

End LookupKey.

(** ** The scenarios of the specification, evaluated *)

Module Scenarios.
Import Scenario.

(** Scenario 7: a local hit and a miss without fallback. *)
Example scenario_local_hit :
  reply cfgLocal udpWriter (query [qA "a.test."]) []
  = withAnswer [A "a.test." "10.0.0.1"]
      (withAuthoritative true (SetReply newMsg (query [qA "a.test."]))).
Proof. reflexivity. Qed.

Example scenario_local_miss :
  Rcode (reply cfgLocal udpWriter (query [qA "b.test."]) [])
  = RcodeNameError.
Proof. reflexivity. Qed.

(** Scenario 9: no [enabled] flag in the document, both listeners on
    port 53. *)
Example scenario_default_listeners :
  main (Ok docLocal)
  = Serving (startupDefaults cfgLocal)
      [mkListener ":53" "udp"; mkListener ":53" "tcp"] 2.
Proof. reflexivity. Qed.

Example scenario_tcp_only :
  exists cfg, main (Ok docTcpOnly)
              = Serving cfg [mkListener ":5353" "tcp"] 1.
Proof. eexists. reflexivity. Qed.

Lemma env_unicode_no_upper (s : string) :
  isASCII s = false -> hasUpper (MapUnicodeToLower s) = false.
Proof. intros _. apply hasUpper_mapBytes_lower. Qed.

Lemma env_unicode_keeps_dot (s : string) :
  isASCII s = false ->
  HasSuffix (MapUnicodeToLower s) "." = HasSuffix s ".".
Proof. intros _. apply HasSuffix_dot_mapBytes_lower. Qed.

(** *** C1 *)

(** The claim as stated fails: without a fallback an MX question is
    answered NXDOMAIN, not NOTIMP. *)
Lemma C1_counterexample :
  FallbackDNS cfgLocal = ""
  /\ Qtype (qMX "a.test.") <> TypeA
  /\ Rcode (reply cfgLocal udpWriter (query [qMX "a.test."]) [])
     <> RcodeNotImplemented.
Proof. repeat split; discriminate. Qed.

Lemma C1_witness :
  Rcode (reply cfgLocal udpWriter (query [qMX "a.test."]) [])
  = RcodeNameError
  /\ Answer (reply cfgLocal udpWriter (query [qMX "a.test."]) []) = []
  /\ hsTrace (handleDNSRequest cfgLocal udpWriter (query [qMX "a.test."]) [])
     = [EvWriteMsg (reply cfgLocal udpWriter (query [qMX "a.test."]) [])].
Proof.
  apply (C1_non_address_question_without_fallback
           cfgLocal udpWriter (query [qMX "a.test."]) [] (qMX "a.test."));
    [reflexivity | reflexivity | discriminate].
Defined.

(** *** C2: the queried name in another letter case, with its dot *)

Lemma C2_witness :
  Rcode (reply cfgRelay tcpWriter (query [qA "A.Test."]) []) = RcodeSuccess
  /\ Answer (reply cfgRelay tcpWriter (query [qA "A.Test."]) [])
     = [A "A.Test." "10.0.0.1"]
  /\ hsTrace (handleDNSRequest cfgRelay tcpWriter (query [qA "A.Test."]) [])
     = [EvWriteMsg (reply cfgRelay tcpWriter (query [qA "A.Test."]) [])].
Proof.
  apply (C2_local_address_answer
           cfgRelay tcpWriter (query [qA "A.Test."]) [] (qA "A.Test.")
           "10.0.0.1" (A "A.Test." "10.0.0.1"));
    reflexivity.
Defined.

(** *** C3 *)

Lemma C3_witness :
  Rcode (reply cfgLocal udpWriter (query [qA "b.test."]) [])
  = RcodeNameError
  /\ Answer (reply cfgLocal udpWriter (query [qA "b.test."]) []) = [].
Proof.
  apply (C3_unknown_name_without_fallback
           cfgLocal udpWriter (query [qA "b.test."]) [] (qA "b.test."));
    reflexivity.
Defined.

(** *** C4 *)

Lemma C4_witness :
  main (Ok docDisabled) <> FatalNoServers
  /\ exists cfg,
      main (Ok docDisabled)
      = Serving cfg [mkListener ":53" "udp"; mkListener ":53" "tcp"] 2
      /\ Enabled (Server_UDP cfg) = true
      /\ Enabled (Server_TCP cfg) = true.
Proof.
  apply (C4_both_disabled_starts_both_listeners docDisabled zeroConfig);
    reflexivity.
Defined.

(** *** C5 *)

(** The claim as stated fails on a reload: the stored snapshot has
    neither transport enabled. *)
Lemma C5_counterexample :
  Unmarshal docDisabled = Ok zeroConfig
  /\ watchStep cfgLocal (WEvent OpWrite (Ok docDisabled))
     = (snd (loadConfig (Ok docDisabled) cfgLocal), true)
  /\ fst (loadConfig (Ok docDisabled) cfgLocal) = None
  /\ Enabled (Server_UDP (snd (loadConfig (Ok docDisabled) cfgLocal)))
     = false
  /\ Enabled (Server_TCP (snd (loadConfig (Ok docDisabled) cfgLocal)))
     = false.
Proof. repeat split. Qed.

Lemma C5_witness :
  Port (Server_UDP (snd (loadConfig (Ok docTcpOnly) cfgLocal))) = 53
  /\ Port (Server_TCP (snd (loadConfig (Ok docTcpOnly) cfgLocal))) = 5353
  /\ Enabled (Server_UDP (snd (loadConfig (Ok docTcpOnly) cfgLocal)))
     = false.
Proof.
  pose proof (C5_load_normalizes_ports docTcpOnly cfgTcpOnly cfgLocal
                eq_refl) as H.
  cbv zeta in H.
  destruct H as (_ & Hu & Ht & _ & _ & Heu & _).
  split; [exact Hu | split; [exact Ht | exact Heu]].
Defined.

(** *** C6 *)

Lemma C6_witness :
  loadFails (Ok docBroken) = true
  /\ snd (loadConfig (Ok docBroken) cfgLocal) = cfgLocal
  /\ handleDNSRequest (snd (loadConfig (Ok docBroken) cfgLocal))
       udpWriter (query [qA "a.test."]) []
     = handleDNSRequest cfgLocal udpWriter (query [qA "a.test."]) [].
Proof.
  split; [reflexivity |].
  pose proof (C6_failed_reload_keeps_snapshot (Ok docBroken) cfgLocal
                eq_refl) as (_ & Hsnd & _ & Hh).
  split; [exact Hsnd | apply Hh].
Defined.

(** *** C7 *)

(** The claim as stated fails from left to right: the upstream resolver
    answers an MX question with SERVFAIL, the exchange succeeds, and the
    reply carries SERVFAIL although no record failed to build and no
    exchange failed. *)
Lemma C7_counterexample :
  Rcode (reply cfgRelay udpWriter (query [qMX "a.test."])
               [Ok (upstream [qMX "a.test."] RcodeServerFailure [])])
  = RcodeServerFailure
  /\ Qtype (qMX "a.test.") <> TypeA
  /\ fst (relayOutcome cfgRelay udpWriter (query [qMX "a.test."])
            (startState (query [qMX "a.test."])
               [Ok (upstream [qMX "a.test."] RcodeServerFailure [])]))
     = Ok (upstream [qMX "a.test."] RcodeServerFailure []).
Proof. repeat split. discriminate. Qed.

(** The malformed address "::1" under the key "a.test". *)
Lemma C7_witness :
  Rcode (reply cfgMalformed udpWriter (query [qA "a.test."]) [])
  = RcodeServerFailure
  /\ last (hsTrace (handleDNSRequest cfgMalformed udpWriter
                      (query [qA "a.test."]) []))
     = Some (EvWriteMsg
               (reply cfgMalformed udpWriter (query [qA "a.test."]) [])).
Proof.
  pose proof (C7_servfail_of_single_question
                cfgMalformed udpWriter (query [qA "a.test."]) []
                (qA "a.test.") eq_refl) as [Hiff Hlast].
  split; [| exact Hlast].
  apply Hiff. left.
  exists "::1", "dns: not an address record". repeat split.
Defined.

(** *** C8: scenario 8, an MX question relayed over the client's network *)

Lemma C8_witness :
  hsTrace (handleDNSRequest cfgRelay tcpWriter (query [qMX "a.test."])
             [Ok (upstream [qMX "a.test."] RcodeSuccess [])])
  = [ EvExchange "tcp" (query [qMX "a.test."]) "10.0.0.53:53";
      EvWriteMsg (upstream [qMX "a.test."] RcodeSuccess []) ]
  /\ reply cfgRelay tcpWriter (query [qMX "a.test."])
           [Ok (upstream [qMX "a.test."] RcodeSuccess [])]
     = upstream [qMX "a.test."] RcodeSuccess [].
Proof.
  pose proof (C8_relay_is_verbatim
                cfgRelay tcpWriter (query [qMX "a.test."])
                [Ok (upstream [qMX "a.test."] RcodeSuccess [])]
                (qMX "a.test.")) as H.
  destruct H as [Htrace Hreply];
    [discriminate | reflexivity | reflexivity |].
  split; [exact Htrace | apply Hreply; reflexivity].
Defined.

(** *** C9 *)

(** The claim as stated fails: two questions are relayed with success,
    a third is answered locally afterwards, and the final reply is the
    second upstream response with one more answer, not that response. *)
Lemma C9_counterexample :
  hsTrace (handleDNSRequest cfgRelay udpWriter (query threeQuestions)
             [Ok upstreamFirst; Ok upstreamSecond])
  = [ EvExchange "udp" (query threeQuestions) "10.0.0.53:53";
      EvExchange "udp" (query threeQuestions) "10.0.0.53:53";
      EvWriteMsg (withAnswer [A "a.test." "10.0.0.1"] upstreamSecond) ]
  /\ reply cfgRelay udpWriter (query threeQuestions)
           [Ok upstreamFirst; Ok upstreamSecond]
     <> upstreamSecond.
Proof. split; [reflexivity | discriminate]. Qed.

Lemma C9_witness :
  reply cfgRelay udpWriter (query threeQuestions)
        [Ok upstreamFirst; Ok upstreamSecond]
  = hsMsg (questionLoop cfgRelay udpWriter (query threeQuestions)
             [qA "a.test."]
             (mkHState upstreamSecond []
                [ relayEvent cfgRelay udpWriter (query threeQuestions);
                  relayEvent cfgRelay udpWriter (query threeQuestions) ])).
Proof.
  apply (C9_successful_relay_replaces_reply
           cfgRelay udpWriter (query threeQuestions)
           [Ok upstreamFirst; Ok upstreamSecond]
           [qMX "a.test."] (qMX "b.test.") [qA "a.test."]
           upstreamSecond []);
    [reflexivity | reflexivity | discriminate | reflexivity].
Defined.

(** *** C10 *)

(** The claim as stated fails for a key with a trailing dot: the name
    [a\..], a label ending in a dot byte followed by the separator, is
    looked up under [a\.] and answered from the record of that key. *)
Lemma C10_counterexample :
  HasSuffix "a\." "." = true
  /\ Records cfgDotted !! "a\." = Some "10.0.0.2"
  /\ lookupKey "a\.." = "a\."
  /\ reply cfgDotted udpWriter (query [qA "a\.."]) []
     = withAnswer [A "a\.." "10.0.0.2"]
         (withAuthoritative true (SetReply newMsg (query [qA "a\.."]))).
Proof. repeat split. Qed.

Lemma C10_witness :
  hasUpper "A.Test" = true
  /\ Records cfgUpper !! "A.Test" = Some "10.0.0.3"
  /\ handleDNSRequest (dropRecord "A.Test" cfgUpper) udpWriter
       (query [qA "A.Test."]) []
     = handleDNSRequest cfgUpper udpWriter (query [qA "A.Test."]) [].
Proof.
  split; [reflexivity | split; [reflexivity |]].
  apply (proj1 (C10_unnormalized_keys
                  env_unicode_no_upper env_unicode_keeps_dot
                  cfgUpper "A.Test")).
  reflexivity.
Defined.

End Scenarios.

(** * Further properties of the program *)

(** ** The handler on any number of questions *)

Section HandlerLoop.
Context {E : External}.
Implicit Types (config : Config) (w : ResponseWriter) (r : Msg RR)
         (q : Question) (qs : list Question) (st : HState) (net : NetState).

Lemma unmatched_true config q :
  unmatched config q = true -> localMatch config q = None.
Proof. unfold unmatched. now destruct (localMatch config q). Qed.

Lemma handleQuestion_matched_trace config w r st q :
  unmatched config q = false ->
  hsTrace (handleQuestion config w r st q) = hsTrace st
  /\ hsNet (handleQuestion config w r st q) = hsNet st.
Proof.
  unfold unmatched, handleQuestion. intros Hm.
  destruct (localMatch config q) as [ip |] eqn:Hl; [| discriminate].
  destruct (NewRR (Name q +:+ " A " +:+ ip)) as [rr | e] eqn:Hrr.
  - now rewrite (resolveLocal_hit _ _ _ ip rr).
  - now rewrite (resolveLocal_malformed _ _ _ ip e).
Qed.

Lemma questionLoop_trace config w r qs st :
  hsTrace (questionLoop config w r qs st)
  = hsTrace st ++ replicate (relayCount config qs) (relayEvent config w r).
Proof.
  revert st. unfold relayCount.
  induction qs as [| q qs IH]; intros st.
  - cbn. destruct (String.eqb (FallbackDNS config) ""); cbn;
      now rewrite app_nil_r.
  - change (questionLoop config w r (q :: qs) st)
      with (questionLoop config w r qs (handleQuestion config w r st q)).
    rewrite IH. cbn [List.filter].
    destruct (unmatched config q) eqn:Hu.
    + rewrite handleQuestion_miss by now apply unmatched_true.
      destruct (String.eqb_spec (FallbackDNS config) "") as [Hfb | Hfb].
      * now rewrite relay_no_fallback.
      * rewrite relay_exchange by assumption.
        destruct (relayOutcome config w r st) as [[m | e] net'];
          cbn [hsTrace length replicate]; now rewrite <- app_assoc.
    + now destruct (handleQuestion_matched_trace config w r st q Hu) as [-> _].
Qed.

(** X1.  Whatever the message, the handler's events are one exchange for
    each question without a local match when a fallback is configured
    (none when it is not), every one of them sending the whole incoming
    message to the same address over the requester's network, followed by
    exactly one write of the reply. *)
Theorem handler_events config w r net :
  hsTrace (handleDNSRequest config w r net)
  = replicate (relayCount config (Questions r)) (relayEvent config w r)
    ++ [EvWriteMsg (reply config w r net)]
  /\ (relayCount config (Questions r) <= length (Questions r))%nat.
Proof.
  split.
  - unfold reply. rewrite handleDNSRequest_loop. cbn [hsTrace hsMsg].
    now rewrite questionLoop_trace.
  - unfold relayCount. destruct (String.eqb (FallbackDNS config) "");
      [lia | apply List.filter_length_le].
Qed.

Lemma withRcode_withAnswer_id (m : Msg RR) :
  withRcode (Rcode m) (withAnswer (Answer m ++ []) m) = m.
Proof. destruct m. cbn. now rewrite app_nil_r. Qed.

Lemma answered_hit config q ip rr :
  localMatch config q = Some ip ->
  NewRR (Name q +:+ " A " +:+ ip) = Ok rr ->
  answered config q = Some rr.
Proof. unfold answered. now intros -> ->. Qed.

Lemma answered_malformed config q ip e :
  localMatch config q = Some ip ->
  NewRR (Name q +:+ " A " +:+ ip) = Err e ->
  answered config q = None.
Proof. unfold answered. now intros -> ->. Qed.

Lemma answered_miss config q :
  localMatch config q = None -> answered config q = None.
Proof. unfold answered. now intros ->. Qed.

Lemma localAnswers_cons config q qs :
  localAnswers config (q :: qs)
  = match answered config q with
    | Some rr => rr :: localAnswers config qs
    | None => localAnswers config qs
    end.
Proof. reflexivity. Qed.

(** Without a fallback the loop only appends answers and sets the code. *)
Lemma questionLoop_no_fallback config w r qs st :
  FallbackDNS config = "" ->
  exists rc,
    questionLoop config w r qs st
    = mkHState
        (withRcode rc
           (withAnswer (Answer (hsMsg st) ++ localAnswers config qs)
                       (hsMsg st)))
        (hsNet st) (hsTrace st)
    /\ (Forall (fun q => is_Some (answered config q)) qs ->
        rc = Rcode (hsMsg st))
    /\ (~ Forall (fun q => is_Some (answered config q)) qs ->
        rc = RcodeServerFailure \/ rc = RcodeNameError).
Proof.
  intros Hfb. revert st.
  induction qs as [| q qs IH]; intros st.
  - exists (Rcode (hsMsg st)). cbn [questionLoop fold_left].
    change (localAnswers config []) with (@nil RR).
    rewrite withRcode_withAnswer_id. destruct st; cbn.
    split; [reflexivity | split; [reflexivity |]].
    intros H. destruct H. constructor.
  - change (questionLoop config w r (q :: qs) st)
      with (questionLoop config w r qs (handleQuestion config w r st q)).
    destruct (IH (handleQuestion config w r st q)) as (rc & Heq & Hall & Hnot).
    exists rc. rewrite Heq. clear Heq IH.
    rewrite localAnswers_cons, Forall_cons.
    assert (Hfailed : forall c,
               (c = RcodeServerFailure \/ c = RcodeNameError) ->
               Rcode (hsMsg (handleQuestion config w r st q)) = c ->
               rc = RcodeServerFailure \/ rc = RcodeNameError).
    { intros c Hc Hrc.
      destruct (decide (Forall (fun q => is_Some (answered config q)) qs))
        as [Hy | Hn]; [| now apply Hnot].
      rewrite (Hall Hy), Hrc. exact Hc. }
    revert Hall Hnot Hfailed. unfold handleQuestion.
    destruct (localMatch config q) as [ip |] eqn:Hl.
    + destruct (NewRR (Name q +:+ " A " +:+ ip)) as [rr | e] eqn:Hrr.
      * rewrite (resolveLocal_hit _ _ _ ip rr) by assumption.
        rewrite (answered_hit _ _ ip rr) by assumption.
        cbn. intros Hall Hnot _. rewrite <- app_assoc.
        split; [reflexivity | split].
        -- intros [_ H]. now apply Hall.
        -- intros H. apply Hnot. intros Hqs. apply H. split; [eauto | exact Hqs].
      * rewrite (resolveLocal_malformed _ _ _ ip e) by assumption.
        rewrite (answered_malformed _ _ ip e) by assumption.
        cbn. intros _ _ Hfailed.
        split; [reflexivity | split].
        -- intros [[x Hx] _]. discriminate.
        -- intros _. apply (Hfailed RcodeServerFailure); [now left | reflexivity].
    + rewrite resolveLocal_miss by assumption.
      rewrite relay_no_fallback by assumption.
      rewrite answered_miss by assumption.
      cbn. intros _ _ Hfailed.
      split; [reflexivity | split].
      * intros [[x Hx] _]. discriminate.
      * intros _. apply (Hfailed RcodeNameError); [now right | reflexivity].
Qed.

(** X2.  Without a fallback the reply to any message is the bare reply to
    it with the records of the locally answered questions as its answers,
    in the order of the questions; its code is NOERROR exactly when every
    question is answered locally, and SERVFAIL or NXDOMAIN otherwise.  The
    network is not used. *)
Theorem reply_without_fallback config w r net :
  FallbackDNS config = "" ->
  exists rc,
    reply config w r net
    = withRcode rc
        (withAnswer (localAnswers config (Questions r))
                    (withAuthoritative true (SetReply newMsg r)))
    /\ (rc = RcodeSuccess
        <-> Forall (fun q => is_Some (answered config q)) (Questions r))
    /\ (rc = RcodeSuccess \/ rc = RcodeServerFailure \/ rc = RcodeNameError)
    /\ hsNet (handleDNSRequest config w r net) = net.
Proof.
  intros Hfb.
  destruct (questionLoop_no_fallback config w r (Questions r)
              (startState r net) Hfb) as (rc & Heq & Hall & Hnot).
  exists rc. unfold reply. rewrite handleDNSRequest_loop. cbv zeta.
  rewrite Heq. cbn [hsMsg hsNet startState] in *.
  change (Answer (withAuthoritative true (SetReply newMsg r))) with (@nil RR).
  change (Rcode (withAuthoritative true (SetReply newMsg r)))
    with RcodeSuccess in Hall.
  split; [reflexivity |].
  destruct (decide (Forall (fun q => is_Some (answered config q))
                           (Questions r))) as [Hy | Hn].
  - split; [| split; [left; now apply Hall | reflexivity]].
    split; [intros _; exact Hy | intros _; now apply Hall].
  - split; [| split; [right; now apply Hnot | reflexivity]].
    split; [| intros Hy; contradiction].
    intros ->. destruct (Hnot Hn); discriminate.
Qed.

End HandlerLoop.

(** ** The key of the lookup, continued *)

Section LookupKeyMore.
Context {E : External}.

Lemma isASCII_app (s t : string) :
  isASCII (s +:+ t) = isASCII s && isASCII t.
Proof.
  induction s as [| c s IH]; [reflexivity |].
  change (String c s +:+ t) with (String c (s +:+ t)).
  cbn [isASCII]. now rewrite IH, andb_assoc.
Qed.

Lemma mapBytes_app (f : ascii -> ascii) (s t : string) :
  mapBytes f (s +:+ t) = mapBytes f s +:+ mapBytes f t.
Proof.
  induction s as [| c s IH]; [reflexivity |].
  change (String c s +:+ t) with (String c (s +:+ t)).
  cbn [mapBytes]. now rewrite IH.
Qed.

Lemma length_append (s t : string) :
  String.length (s +:+ t) = (String.length s + String.length t)%nat.
Proof.
  induction s as [| c s IH]; [reflexivity |].
  change (String c s +:+ t) with (String c (s +:+ t)).
  cbn [String.length]. now rewrite IH.
Qed.

(** X4.  Only one trailing dot is stripped: an ASCII name followed by two
    dots is looked up under the key of the name followed by one dot, with
    a dot left at its end, so the two names never share a record. *)
Theorem lookupKey_strips_one_dot (name : string) :
  isASCII name = true ->
  lookupKey (name +:+ ".") = mapBytes lowerByte name
  /\ lookupKey ((name +:+ ".") +:+ ".") = mapBytes lowerByte name +:+ "."
  /\ lookupKey ((name +:+ ".") +:+ ".") <> lookupKey (name +:+ ".").
Proof.
  intros Ha. unfold lookupKey. rewrite !TrimSuffix_app_dot.
  rewrite !ToLower_ascii by (rewrite ?isASCII_app, ?Ha; reflexivity).
  rewrite mapBytes_app. change (mapBytes lowerByte ".") with ".".
  split; [reflexivity | split; [reflexivity |]].
  intros H. apply (f_equal String.length) in H.
  rewrite length_append in H. cbn in H. lia.
Qed.

(** X3.  Matching ignores the ASCII letter case and one trailing dot:
    two ASCII names that are equal once lower-cased, written without a
    final dot or with a single one, are looked up under the same key, and
    so questions for them find the same record or none. *)
Theorem lookup_ignores_case_and_dot (n1 n2 : string) :
  isASCII n1 = true ->
  isASCII n2 = true ->
  mapBytes lowerByte n1 = mapBytes lowerByte n2 ->
  HasSuffix n1 "." = false ->
  lookupKey n1 = lookupKey n2
  /\ lookupKey (n1 +:+ ".") = lookupKey n2
  /\ lookupKey (n2 +:+ ".") = lookupKey n2
  /\ forall config ty cl,
       localMatch config (mkQuestion (n1 +:+ ".") ty cl)
       = localMatch config (mkQuestion n2 ty cl).
Proof.
  intros Ha1 Ha2 Heq Hdot.
  assert (Hk : HasSuffix (mapBytes lowerByte n2) "." = false).
  { now rewrite <- Heq, HasSuffix_dot_mapBytes_lower. }
  destruct (lookupKey_fold_case n1 (mapBytes lowerByte n2) Ha1 Heq Hk)
    as [H1 H1d].
  destruct (lookupKey_fold_case n2 (mapBytes lowerByte n2) Ha2 eq_refl Hk)
    as [H2 H2d].
  repeat split; try congruence.
  intros config ty cl. unfold localMatch. cbn [Name Qtype].
  now rewrite H1d, H2.
Qed.

End LookupKeyMore.

(** ** The watcher *)

Section WatcherMore.
Context {E : External}.
Implicit Types (config doc : Config) (file : Result string)
         (inputs pre post : list WatchInput).



(** X6.  Once a channel of the watcher is closed the loop is over:
    nothing that arrives afterwards changes the snapshot. *)
Theorem watchConfig_stops_at_close config pre post :
  watchConfig config (pre ++ WClosed :: post) = watchConfig config pre.
Proof.
  revert config. induction pre as [| i pre IH]; intros config.
  - reflexivity.
  - cbn [app watchConfig].
    destruct (watchStep config i) as [config' continue].
    destruct continue; [apply IH | reflexivity].
Qed.

Lemma watchStep_continue config i :
  isClosed i = false -> snd (watchStep config i) = true.
Proof.
  destruct i as [op file | e |]; cbn; [| reflexivity | discriminate].
  intros _. now destruct (OpHas op OpWrite || OpHas op OpCreate).
Qed.

Lemma watchStep_keeps config i :
  keepsSnapshot i = true -> fst (watchStep config i) = config.
Proof.
  destruct i as [op file | e |]; cbn; try reflexivity.
  destruct (OpHas op OpWrite || OpHas op OpCreate); cbn; [| reflexivity].
  intros H. now destruct (loadConfig_fails file config H).
Qed.

Lemma watchConfig_keeps config inputs :
  Forall (fun i => keepsSnapshot i = true) inputs ->
  watchConfig config inputs = config.
Proof.
  induction 1 as [| i inputs Hi _ IH]; [reflexivity |].
  cbn [watchConfig].
  pose proof (watchStep_keeps config i Hi) as Hk.
  destruct (watchStep config i) as [config' continue]. cbn in Hk. subst.
  now destruct continue.
Qed.

(** X7.  The snapshot the watcher leaves is that of the last reload that
    succeeded: after any inputs that do not close the loop, a Write or
    Create event on a file that decodes stores the port-defaulted
    document, whatever the snapshot was before, and the failing reloads,
    other events and watcher errors that follow do not change it. *)
Theorem watchConfig_last_good_reload config pre (op : Z) data doc post :
  Forall (fun i => isClosed i = false) pre ->
  OpHas op OpWrite || OpHas op OpCreate = true ->
  Unmarshal data = Ok doc ->
  Forall (fun i => keepsSnapshot i = true) post ->
  watchConfig config (pre ++ WEvent op (Ok data) :: post)
  = mkConfig (Records doc) (FallbackDNS doc)
      (withPort (defaultedPort (Port (Server_UDP doc))) (Server_UDP doc))
      (withPort (defaultedPort (Port (Server_TCP doc))) (Server_TCP doc)).
Proof.
  intros Hpre Hop Hdoc Hpost. revert config.
  induction Hpre as [| i pre Hi _ IH]; intros config.
  - cbn [app watchConfig watchStep]. rewrite Hop.
    rewrite (loadConfig_ok _ _ _ Hdoc). cbn [snd].
    now apply watchConfig_keeps.
  - cbn [app watchConfig].
    pose proof (watchStep_continue config i Hi) as Hc.
    destruct (watchStep config i) as [config' continue]. cbn in Hc. subst.
    apply IH.
Qed.

End WatcherMore.

(** ** Start-up *)

Section StartupMore.
Context {E : External}.
Implicit Types (config doc : Config) (file : Result string).




(** X10.  The defaults of [main] are idempotent, and on a snapshot that
    [loadConfig] stored they change nothing but the enabled flags: the
    ports are already defaulted, and a snapshot with a transport enabled
    is left as it is. *)
Theorem startupDefaults_after_load data doc config :
  Unmarshal data = Ok doc ->
  let c := snd (loadConfig (Ok data) config) in
  startupDefaults (startupDefaults c) = startupDefaults c
  /\ Server_UDP (startupDefaults c)
     = withEnabled (udpStarted doc) (Server_UDP c)
  /\ Server_TCP (startupDefaults c)
     = withEnabled (tcpStarted doc) (Server_TCP c)
  /\ (Enabled (Server_UDP doc) || Enabled (Server_TCP doc) = true ->
      startupDefaults c = c).
Proof.
  intros Hdoc c. subst c. rewrite (loadConfig_ok _ _ _ Hdoc). cbn [snd].
  rewrite !startupDefaults_eq. unfold udpStarted, tcpStarted.
  destruct doc as [recs fb [eu pu iu] [et pt it]].
  cbn. rewrite !defaultedPort_idem.
  destruct eu, et; cbn; rewrite ?defaultedPort_idem; repeat split;
    try reflexivity; discriminate.
Qed.

End StartupMore.

(** ** The path of the configuration file *)

Section InitFacts.
Variable Stat : string -> bool.
Variable Getwd : Result string.
Variable Join : string -> string -> string.

(** X11.  [init] picks a file that exists whenever one of its two
    candidates does: the path it leaves exists exactly when the default
    path exists or the working directory is known and holds a
    [config.yaml].  The default path has priority, and the result is
    always one of the two candidates. *)
Theorem init_picks_existing_file :
  (Stat (init Stat Getwd Join) = true
   <-> Stat defaultConfigPath = true
       \/ exists pwd, Getwd = Ok pwd /\ Stat (Join pwd "config.yaml") = true)
  /\ (Stat defaultConfigPath = true ->
      init Stat Getwd Join = defaultConfigPath)
  /\ (init Stat Getwd Join = defaultConfigPath
      \/ exists pwd, Getwd = Ok pwd
                     /\ Stat (Join pwd "config.yaml") = true
                     /\ init Stat Getwd Join = Join pwd "config.yaml").
Proof.
  unfold init.
  destruct (Stat defaultConfigPath) eqn:Hd.
  - rewrite Hd. split; [tauto | split; [reflexivity | now left]].
  - destruct Getwd as [pwd | e].
    + destruct (Stat (Join pwd "config.yaml")) eqn:Hl.
      * rewrite Hl. split; [| split; [discriminate |]].
        -- split; [| reflexivity]. intros _. right. now exists pwd.
        -- right. now exists pwd.
      * rewrite Hd. split; [| split; [discriminate | now left]].
        split; [discriminate |].
        intros [H | (pwd' & [= <-] & H)]; [discriminate | congruence].
    + rewrite Hd. split; [| split; [discriminate | now left]].
      split; [discriminate |].
      intros [H | (pwd' & H & _)]; discriminate.
Qed.

End InitFacts.

(** ** The earlier revision of the handler *)

Section EarlierFacts.
Context {E : External}.
Implicit Types (r : Msg RR) (q : Question) (qs : list Question)
         (st : HState) (net : NetState).

Lemma earlier_loop_other_types (config : Earlier.Config) r qs st :
  Forall (fun q => Qtype q <> TypeA) qs ->
  qs <> [] ->
  Earlier.questionLoop config r qs st
  = mkHState (withRcode RcodeNotImplemented (hsMsg st)) (hsNet st) (hsTrace st).
Proof.
  intros Hall. revert st.
  induction Hall as [| q qs Hq Hall IH]; intros st Hne; [contradiction |].
  change (Earlier.questionLoop config r (q :: qs) st)
    with (Earlier.questionLoop config r qs
            (Earlier.handleQuestion config r st q)).
  assert (Hstep : Earlier.handleQuestion config r st q
                  = mkHState (withRcode RcodeNotImplemented (hsMsg st))
                             (hsNet st) (hsTrace st)).
  { unfold Earlier.handleQuestion. apply Z.eqb_neq in Hq. now rewrite Hq. }
  rewrite Hstep. destruct qs as [| q' qs]; [reflexivity |].
  rewrite IH by discriminate. reflexivity.
Qed.

(** X12.  In the earlier revision a message whose questions are all of a
    type other than A is answered NOTIMP, with no answer and without any
    exchange, whether a fallback is configured or not. *)
Theorem earlier_refuses_other_types (config : Earlier.Config) r net :
  Forall (fun q => Qtype q <> TypeA) (Questions r) ->
  Questions r <> [] ->
  Earlier.handleDNSRequest config r net
  = mkHState
      (withRcode RcodeNotImplemented
                 (withAuthoritative true (SetReply newMsg r)))
      net
      [EvWriteMsg (withRcode RcodeNotImplemented
                             (withAuthoritative true (SetReply newMsg r)))].
Proof.
  intros Hall Hne. unfold Earlier.handleDNSRequest. cbv zeta.
  change (fold_left (Earlier.handleQuestion config r) (Questions r) ?s)
    with (Earlier.questionLoop config r (Questions r) s).
  now rewrite earlier_loop_other_types.
Qed.

(** X13.  On a message whose questions are all of type A the two revisions
    do the same, step for step, provided the current handler's requester
    reports the empty network name: the earlier revision always relays
    with the client's default network, the current one with the
    requester's. *)
Theorem revisions_agree_on_address_questions (config : Config) r net :
  Forall (fun q => Qtype q = TypeA) (Questions r) ->
  Earlier.handleDNSRequest
    (Earlier.mkConfig (Records config) (FallbackDNS config)) r net
  = handleDNSRequest config (mkResponseWriter "") r net.
Proof.
  intros Hall. unfold Earlier.handleDNSRequest, handleDNSRequest. cbv zeta.
  assert (Hloop : forall st,
             fold_left (Earlier.handleQuestion
                          (Earlier.mkConfig (Records config)
                                            (FallbackDNS config)) r)
                       (Questions r) st
             = fold_left (handleQuestion config (mkResponseWriter "") r)
                         (Questions r) st).
  { induction Hall as [| q qs Hq _ IH]; intros st; [reflexivity |].
    cbn [fold_left]. rewrite <- IH. f_equal.
    unfold Earlier.handleQuestion, handleQuestion, resolveLocal, relay.
    cbn [Earlier.Records Earlier.FallbackDNS RemoteNetwork].
    rewrite Hq. cbn [Z.eqb TypeA Pos.eqb].
    destruct (Records config !! lookupKey (Name q)) as [ip |]; [| reflexivity].
    now destruct (NewRR (Name q +:+ " A " +:+ ip)). }
  now rewrite Hloop.
Qed.

End EarlierFacts.

(** ** What the handler reads of the snapshot *)

Section HandlerReads.
Context {E : External}.
Implicit Types (w : ResponseWriter) (r : Msg RR) (net : NetState).

(** X14.  The handler reads the records and the fallback of the snapshot
    and nothing else: two snapshots that agree on both are served alike,
    so neither the server section of a reloaded document nor the defaults
    of [loadConfig] and [main] bear on any reply. *)
Theorem handler_reads_records_and_fallback (c1 c2 : Config) w r net :
  Records c1 = Records c2 ->
  FallbackDNS c1 = FallbackDNS c2 ->
  handleDNSRequest c1 w r net = handleDNSRequest c2 w r net.
Proof.
  intros Hrec Hfb. rewrite !handleDNSRequest_loop.
  assert (Hloop : forall qs st,
             questionLoop c1 w r qs st = questionLoop c2 w r qs st).
  { induction qs as [| q qs IH]; intros st; [reflexivity |].
    change (questionLoop c1 w r (q :: qs) st)
      with (questionLoop c1 w r qs (handleQuestion c1 w r st q)).
    change (questionLoop c2 w r (q :: qs) st)
      with (questionLoop c2 w r qs (handleQuestion c2 w r st q)).
    rewrite IH. f_equal.
    unfold handleQuestion, resolveLocal, relay. now rewrite Hrec, Hfb. }
  now rewrite Hloop.
Qed.

End HandlerReads.

(** ** The further properties on the scenarios *)

Module MoreScenarios.
Import Scenario.

Lemma reply_without_fallback_witness :
  exists rc,
    reply cfgLocal udpWriter (query [qA "A.Test."; qA "b.test."]) []
    = withRcode rc
        (withAnswer
           (localAnswers cfgLocal [qA "A.Test."; qA "b.test."])
           (withAuthoritative true
              (SetReply newMsg (query [qA "A.Test."; qA "b.test."]))))
    /\ (rc = RcodeSuccess
        <-> Forall (fun q => is_Some (answered cfgLocal q))
                   [qA "A.Test."; qA "b.test."])
    /\ (rc = RcodeSuccess \/ rc = RcodeServerFailure \/ rc = RcodeNameError)
    /\ hsNet (handleDNSRequest cfgLocal udpWriter
                (query [qA "A.Test."; qA "b.test."]) [])
       = [].
Proof.
  apply (reply_without_fallback
           cfgLocal udpWriter (query [qA "A.Test."; qA "b.test."]) []).
  reflexivity.
Defined.

Lemma lookup_ignores_case_and_dot_witness :
  lookupKey "A.Test" = lookupKey "a.tesT"
  /\ lookupKey ("A.Test" +:+ ".") = lookupKey "a.tesT"
  /\ lookupKey ("a.tesT" +:+ ".") = lookupKey "a.tesT"
  /\ localMatch cfgLocal (qA ("A.Test" +:+ "."))
     = localMatch cfgLocal (qA "a.tesT").
Proof.
  destruct (lookup_ignores_case_and_dot "A.Test" "a.tesT")
    as (H1 & H2 & H3 & H4); try reflexivity.
  split; [exact H1 | split; [exact H2 | split; [exact H3 |]]].
  apply (H4 cfgLocal TypeA ClassINET).
Defined.

Lemma lookupKey_strips_one_dot_witness :
  lookupKey ("a.Test" +:+ ".") = mapBytes lowerByte "a.Test"
  /\ lookupKey (("a.Test" +:+ ".") +:+ ".")
     = mapBytes lowerByte "a.Test" +:+ "."
  /\ lookupKey (("a.Test" +:+ ".") +:+ ".") <> lookupKey ("a.Test" +:+ ".").
Proof.
  apply (lookupKey_strips_one_dot "a.Test"). reflexivity.
Defined.

Lemma watchConfig_last_good_reload_witness :
  watchConfig cfgLocal
    ([WError "inotify: queue overflow"; WEvent OpWrite (Ok docBroken)]
     ++ WEvent OpWrite (Ok docRelay)
        :: [WEvent 16 (Ok docDisabled); WEvent OpCreate (Err "no such file")])
  = mkConfig (Records cfgRelay) (FallbackDNS cfgRelay)
      (withPort (defaultedPort (Port (Server_UDP cfgRelay)))
                (Server_UDP cfgRelay))
      (withPort (defaultedPort (Port (Server_TCP cfgRelay)))
                (Server_TCP cfgRelay)).
Proof.
  apply (watchConfig_last_good_reload
           cfgLocal
           [WError "inotify: queue overflow"; WEvent OpWrite (Ok docBroken)]
           OpWrite docRelay cfgRelay
           [WEvent 16 (Ok docDisabled); WEvent OpCreate (Err "no such file")]).
  - repeat constructor.
  - reflexivity.
  - reflexivity.
  - repeat constructor.
Defined.


Lemma startupDefaults_after_load_witness :
  startupDefaults (snd (loadConfig (Ok docTcpOnly) cfgLocal))
  = snd (loadConfig (Ok docTcpOnly) cfgLocal).
Proof.
  pose proof (startupDefaults_after_load docTcpOnly cfgTcpOnly cfgLocal
                eq_refl) as H.
  cbv zeta in H. destruct H as (_ & _ & _ & H).
  apply H. reflexivity.
Defined.

Lemma earlier_refuses_other_types_witness :
  Earlier.handleDNSRequest (Earlier.mkConfig localRecords "10.0.0.53")
    (query [qMX "a.test."]) [Ok (upstream [qMX "a.test."] RcodeSuccess [])]
  = mkHState
      (withRcode RcodeNotImplemented
         (withAuthoritative true (SetReply newMsg (query [qMX "a.test."]))))
      [Ok (upstream [qMX "a.test."] RcodeSuccess [])]
      [EvWriteMsg
         (withRcode RcodeNotImplemented
            (withAuthoritative true
               (SetReply newMsg (query [qMX "a.test."]))))].
Proof.
  apply (earlier_refuses_other_types
           (Earlier.mkConfig localRecords "10.0.0.53")
           (query [qMX "a.test."])
           [Ok (upstream [qMX "a.test."] RcodeSuccess [])]).
  - repeat constructor. discriminate.
  - discriminate.
Defined.

Lemma revisions_agree_on_address_questions_witness :
  Earlier.handleDNSRequest
    (Earlier.mkConfig (Records cfgRelay) (FallbackDNS cfgRelay))
    (query [qA "b.test."; qA "a.test."])
    [Ok (upstream [qA "b.test."; qA "a.test."] RcodeNameError [])]
  = handleDNSRequest cfgRelay (mkResponseWriter "")
      (query [qA "b.test."; qA "a.test."])
      [Ok (upstream [qA "b.test."; qA "a.test."] RcodeNameError [])].
Proof.
  apply (revisions_agree_on_address_questions
           cfgRelay (query [qA "b.test."; qA "a.test."])
           [Ok (upstream [qA "b.test."; qA "a.test."] RcodeNameError [])]).
  repeat constructor.
Defined.

Lemma handler_reads_records_and_fallback_witness :
  handleDNSRequest cfgRelay tcpWriter (query [qA "a.test."]) []
  = handleDNSRequest (startupDefaults cfgRelay) tcpWriter
      (query [qA "a.test."]) [].
Proof.
  apply (handler_reads_records_and_fallback
           cfgRelay (startupDefaults cfgRelay) tcpWriter
           (query [qA "a.test."]) []);
    reflexivity.
Defined.

End MoreScenarios.
